(** * OmniScript registry search: cache store, adapters and tag ranking

    A shallow embedding of [tools/registry_search.py] (class
    [RegistrySearcher]) and the properties of its cache, its two search
    adapters and its best-tag selection.

    Conventions of the embedding.
    - A Python [str] is a [string]; each [ascii] is one code point below
      256, and the character classes below are Python's on that range.
    - A Python [int] is a [Z].
    - A call that may raise returns an [outcome]; code that touches the
      cache directory or the network runs in the monad [M] over [world]. *)

From Stdlib Require Import ZArith NArith Ascii String List Bool Lia DecimalString Sorted.
From Stdlib Require Import Decimal DecimalFacts DecimalPos DecimalZ.
From stdpp Require Import gmap strings.
Import ListNotations.

Local Open Scope string_scope.
Local Open Scope Z_scope.
Set Warnings "-register-all".

(** ** Python's [str] operations used by the program *)

Module PyStr.

Definition code (c : ascii) : N := N_of_ascii c.

Definition between (lo hi : N) (c : ascii) : bool :=
  (N.leb lo (code c) && N.leb (code c) hi)%bool.

(** [\d] of [re] on a [str] pattern: the decimal digits. *)
Definition is_digit (c : ascii) : bool := between 48 57 c.

(** [\w] of [re] on a [str] pattern: alphanumeric characters and the
    underscore ([str.isalnum] on the code points below 256). *)
Definition is_word (c : ascii) : bool :=
  (is_digit c || between 65 90 c || between 97 122 c || N.eqb (code c) 95
   || N.eqb (code c) 170 || between 178 179 c || N.eqb (code c) 181
   || between 185 186 c || between 188 190 c
   || between 192 214 c || between 216 246 c || between 248 255 c)%bool.

(** The characters [int()] strips from both ends of its argument. *)
Definition is_space (c : ascii) : bool :=
  (between 9 13 c || N.eqb (code c) 32 || N.eqb (code c) 133 || N.eqb (code c) 160)%bool.

(** [str.lower] on one character: [A-Z] and the upper-case letters of the
    Latin-1 block move up by 32. *)
Definition lower_char (c : ascii) : ascii :=
  if (between 65 90 c || between 192 214 c || between 216 222 c)%bool
  then ascii_of_N (code c + 32)
  else c.

(** [s.lower()] *)
Fixpoint lower (s : string) : string :=
  match s with
  | EmptyString => EmptyString
  | String c s' => String (lower_char c) (lower s')
  end.

Fixpoint lstrip_if (p : ascii -> bool) (s : string) : string :=
  match s with
  | EmptyString => EmptyString
  | String c s' => if p c then lstrip_if p s' else s
  end.

Fixpoint rev_append (s acc : string) : string :=
  match s with
  | EmptyString => acc
  | String c s' => rev_append s' (String c acc)
  end.

Definition rev (s : string) : string := rev_append s EmptyString.

Definition rstrip_if (p : ascii -> bool) (s : string) : string :=
  rev (lstrip_if p (rev s)).

(** [s.lstrip(chars)] for a one-character [chars]. *)
Definition lstrip (ch : ascii) (s : string) : string := lstrip_if (Ascii.eqb ch) s.

(** [re.split(r'[...]', s)] for a one-character class: every separator
    ends a field, so [n] separators give [n + 1] fields. *)
Fixpoint split_on (sep : ascii -> bool) (s : string) : list string :=
  match s with
  | EmptyString => [EmptyString]
  | String c s' =>
      if sep c then EmptyString :: split_on sep s'
      else match split_on sep s' with
           | p :: ps => String c p :: ps
           | [] => [String c EmptyString]
           end
  end.

(** The digits of [int()]'s argument after the sign: decimal digits, with
    single underscores allowed between two digits. [after_digit] says
    whether the previous character was a digit. *)
Fixpoint digits_value (acc : Z) (after_digit : bool) (s : string) : option Z :=
  match s with
  | EmptyString => if after_digit then Some acc else None
  | String c s' =>
      if is_digit c then digits_value (10 * acc + (Z.of_N (code c) - 48)) true s'
      else if (N.eqb (code c) 95 && after_digit)%bool then digits_value acc false s'
      else None
  end.

(** The number of decimal digits in [s]. *)
Fixpoint count_digits (s : string) : N :=
  match s with
  | EmptyString => 0%N
  | String c s' => if is_digit c then N.succ (count_digits s') else count_digits s'
  end.

(** [sys.get_int_max_str_digits()], by default: [int()] refuses an
    argument with more decimal digits, leading zeros counted, underscores
    not. *)
Definition max_str_digits : N := 4300.

Definition limited_digits (d : string) : option Z :=
  if N.ltb max_str_digits (count_digits d) then None
  else digits_value 0 false d.

(** [int(s)] in base 10; [None] stands for [ValueError]. *)
Definition int (s : string) : option Z :=
  match rstrip_if is_space (lstrip_if is_space s) with
  | String "+" d => limited_digits d
  | String "-" d => option_map Z.opp (limited_digits d)
  | d => limited_digits d
  end.

(** [str(n)] for an [int]. *)
Definition of_int (n : Z) : string := NilZero.string_of_int (Z.to_int n).

(** [s[:n]] *)
Fixpoint take (n : nat) (s : string) : string :=
  match n, s with
  | S n', String c s' => String c (take n' s')
  | _, _ => EmptyString
  end.

(** [needle in s] for two strings. *)
Fixpoint contains (needle s : string) : bool :=
  (String.prefix needle s ||
   match s with
   | EmptyString => false
   | String _ s' => contains needle s'
   end)%bool.

End PyStr.

(** ** Regular expressions

    The fragment of [re] the program uses: character classes,
    concatenation, alternation and repetition, matched by derivatives. *)

Module Re.

Inductive regex : Type :=
  | Never : regex
  | Eps : regex
  | Class (p : ascii -> bool)
  | Cat (r1 r2 : regex)
  | Alt (r1 r2 : regex)
  | Star (r : regex).

Definition Lit (c : ascii) : regex := Class (Ascii.eqb c).
Definition Opt (r : regex) : regex := Alt r Eps.
Definition Plus (r : regex) : regex := Cat r (Star r).

Fixpoint nullable (r : regex) : bool :=
  match r with
  | Never => false
  | Eps => true
  | Class _ => false
  | Cat r1 r2 => nullable r1 && nullable r2
  | Alt r1 r2 => nullable r1 || nullable r2
  | Star _ => true
  end.

Fixpoint deriv (c : ascii) (r : regex) : regex :=
  match r with
  | Never => Never
  | Eps => Never
  | Class p => if p c then Eps else Never
  | Cat r1 r2 =>
      if nullable r1 then Alt (Cat (deriv c r1) r2) (deriv c r2)
      else Cat (deriv c r1) r2
  | Alt r1 r2 => Alt (deriv c r1) (deriv c r2)
  | Star r1 => Cat (deriv c r1) (Star r1)
  end.

(** The whole of [s] is in the language of [r]. *)
Fixpoint accepts (r : regex) (s : string) : bool :=
  match s with
  | EmptyString => nullable r
  | String c s' => accepts (deriv c r) s'
  end.

(** [re.compile('^' r '$').match(s)]: [$] holds at the end of the string
    and also just before a newline that ends the string. *)
Definition match_anchored (r : regex) (s : string) : bool :=
  accepts (Cat r (Opt (Lit "010"%char))) s.

End Re.

(** ** Python lists: comparison and [list.sort] *)

Module PyList.

(** [a < b] on two lists of integers: the first index where they differ
    decides, and a proper prefix is smaller. *)
Fixpoint lt (a b : list Z) : bool :=
  match a, b with
  | [], [] => false
  | [], _ :: _ => true
  | _ :: _, [] => false
  | x :: a', y :: b' =>
      if x =? y then lt a' b' else x <? y
  end.

Section Sort.
  Context {A : Type} (key : A -> list Z).

  (** One step of a stable ascending sort: [x] stood before every element
      of [s], so it goes in front of the first element that is not smaller. *)
Fixpoint insert (x : A) (s : list A) : list A :=
    match s with
    | [] => [x]
    | y :: s' => if lt (key y) (key x) then y :: insert x s' else x :: s
    end.

Definition stable_sort (l : list A) : list A := fold_right insert [] l.

  (** [l.sort(key=key, reverse=reverse)]. With [reverse] the list is
      reversed, sorted and reversed again, which keeps elements with equal
      keys in their original order. *)
Definition sort (reverse : bool) (l : list A) : list A :=
    if reverse then List.rev (stable_sort (List.rev l)) else stable_sort l.

End Sort.

(** [l[:n]] for an integer [n] that may be negative. *)
Definition slice_to {A : Type} (n : Z) (l : list A) : list A :=
  if 0 <=? n then firstn (Z.to_nat n) l
  else firstn (Z.to_nat (Z.of_nat (List.length l) + n)) l.

End PyList.

(** ** Tag ranking: the body of [RegistrySearcher.get_best_tag] *)

Module Ranker.

(** [exclude = {'latest', 'edge', ...}] *)
Definition exclude : list string :=
  ["latest"; "edge"; "nightly"; "dev"; "develop"; "master";
   "main"; "unstable"; "beta"; "alpha"; "rc"; "test"; "testing"].

(** [s in exclude] *)
Definition in_exclude (s : string) : bool := existsb (String.eqb s) exclude.

(** [v?\d+(\.\d+)?(\.\d+)?(-[\w]+)?], the pattern between [^] and [$]. *)
Definition semver_body : Re.regex :=
  let num := Re.Plus (Re.Class PyStr.is_digit) in
  let dot_num := Re.Opt (Re.Cat (Re.Lit ".") num) in
  Re.Cat (Re.Opt (Re.Lit "v"))
    (Re.Cat num
      (Re.Cat dot_num
        (Re.Cat dot_num
          (Re.Opt (Re.Cat (Re.Lit "-") (Re.Plus (Re.Class PyStr.is_word))))))).

(** [semver_pattern.match(t)] is not [None]. *)
Definition semver_pattern (t : string) : bool := Re.match_anchored semver_body t.

(** [t.lower() in exclude] *)
Definition excluded (t : string) : bool := in_exclude (PyStr.lower t).

(** [[t for t in tags if t.lower() not in exclude and semver_pattern.match(t)]] *)
Definition valid_tags (tags : list string) : list string :=
  List.filter (fun t => negb (excluded t) && semver_pattern t) tags.

Definition is_sep (c : ascii) : bool := (Ascii.eqb c "-" || Ascii.eqb c ".")%bool.

(** Pads [result] with zeros [while len(result) < 4]. *)
Definition pad4 (result : list Z) : list Z :=
  result ++ repeat 0 (4 - List.length result)%nat.

(** The nested function [version_key]. *)
Definition version_key (tag : string) : list Z :=
  let t := PyStr.lstrip "v" tag in
  let parts := PyStr.split_on is_sep t in
  let result :=
    map (fun p => match PyStr.int p with
                  | Some n => n
                  | None => 0
                  end) (firstn 4 parts) in
  pad4 result.

(** [get_best_tag] from the tag list on: what it returns when [get_tags]
    gave [tags]. *)
Definition best_tag (tags : list string) : string :=
  match tags with
  | [] => "latest"
  | first :: _ =>
      let valid := valid_tags tags in
      match valid with
      | [] => first
      | _ :: _ => List.hd first (PyList.sort version_key true valid)
      end
  end.

End Ranker.

(** ** JSON values as Python objects

    What [json.load] returns and [json.dump] accepts: [None], [bool],
    [int], [str], [list] and [dict] with string keys (floats do not occur
    in the program's payloads and are left out). A [dict] is the list of
    its items in insertion order. *)

Inductive json : Type :=
  | JNull : json
  | JBool (b : bool)
  | JNum (n : Z)
  | JStr (s : string)
  | JArr (items : list json)
  | JObj (fields : list (string * json)).

(** The exceptions the modelled code can raise. *)
Inductive exn : Type :=
  | AttributeError
  | TypeError
  | ValueError
  | KeyError
  | JSONDecodeError
  | UnicodeDecodeError
  | RecursionError
  | OSError.

(** The result of a call: a value, or an exception on its way up. *)
Inductive outcome (A : Type) : Type :=
  | Return (a : A)
  | Raise (e : exn).

Arguments Return {A} a.
Arguments Raise {A} e.

Module Py.

Definition bind {A B : Type} (m : outcome A) (k : A -> outcome B) : outcome B :=
  match m with
  | Return a => k a
  | Raise e => Raise e
  end.

(** [[f(x) for x in l]], stopping at the first exception. *)
Fixpoint traverse {A B : Type} (f : A -> outcome B) (l : list A) : outcome (list B) :=
  match l with
  | [] => Return []
  | x :: l' => bind (f x) (fun y => bind (traverse f l') (fun ys => Return (y :: ys)))
  end.

(** [bool(v)] *)
Definition truthy (v : json) : bool :=
  match v with
  | JNull => false
  | JBool b => b
  | JNum n => negb (n =? 0)
  | JStr s => negb (String.eqb s EmptyString)
  | JArr l => match l with [] => false | _ :: _ => true end
  | JObj m => match m with [] => false | _ :: _ => true end
  end.

(** Lookup in a [dict]'s items. *)
Fixpoint assoc (k : string) (m : list (string * json)) : option json :=
  match m with
  | [] => None
  | (k', v) :: m' => if String.eqb k k' then Some v else assoc k m'
  end.

(** [v.get(k, default)]: only a [dict] has the method. *)
Definition get (v : json) (k : string) (default : json) : outcome json :=
  match v with
  | JObj m => Return (match assoc k m with Some x => x | None => default end)
  | _ => Raise AttributeError
  end.

(** [k in v] for a string [k]. *)
Definition contains (k : string) (v : json) : outcome bool :=
  match v with
  | JObj m => Return (match assoc k m with Some _ => true | None => false end)
  | JArr l => Return (existsb (fun x => match x with
                                        | JStr s => String.eqb k s
                                        | _ => false
                                        end) l)
  | JStr s => Return (PyStr.contains k s)
  | _ => Raise TypeError
  end.

(** [v[k]] for a string [k]. *)
Definition getitem (v : json) (k : string) : outcome json :=
  match v with
  | JObj m => match assoc k m with Some x => Return x | None => Raise KeyError end
  | _ => Raise TypeError
  end.

Fixpoint chars (s : string) : list string :=
  match s with
  | EmptyString => []
  | String c s' => String c EmptyString :: chars s'
  end.

(** The items [for x in v] goes through. *)
Definition iter (v : json) : outcome (list json) :=
  match v with
  | JArr l => Return l
  | JStr s => Return (map JStr (chars s))
  | JObj m => Return (map (fun kv => JStr (fst kv)) m)
  | _ => Raise TypeError
  end.

(** [v[:n]] *)
Definition slice_to (n : Z) (v : json) : outcome json :=
  match v with
  | JArr l => Return (JArr (PyList.slice_to n l))
  | JStr s => Return (JStr (string_of_list_ascii
                              (PyList.slice_to n (list_ascii_of_string s))))
  | _ => Raise TypeError
  end.

(** [(v or '')[:100]] *)
Definition or_empty_100 (v : json) : outcome json :=
  slice_to 100 (if truthy v then v else JStr EmptyString).

Definition hex_digit (upper : bool) (n : N) : ascii :=
  if N.ltb n 10 then ascii_of_N (48 + n)
  else ascii_of_N ((if upper then 55 else 87) + n).

Definition hex2 (upper : bool) (n : N) : string :=
  String (hex_digit upper (N.div n 16)) (String (hex_digit upper (N.modulo n 16)) EmptyString).

Definition backslash : ascii := "092"%char.
Definition dquote : ascii := "034"%char.
Definition squote : ascii := "039"%char.

Definition printable (c : ascii) : bool :=
  negb (N.ltb (PyStr.code c) 32 || PyStr.between 127 160 c || N.eqb (PyStr.code c) 173).

Definition has_char (c : ascii) (s : string) : bool :=
  existsb (Ascii.eqb c) (list_ascii_of_string s).

(** One character of [repr(s)] between quotes [q]. *)
Definition repr_char (q c : ascii) : string :=
  if (Ascii.eqb c backslash || Ascii.eqb c q)%bool then String backslash (String c EmptyString)
  else if N.eqb (PyStr.code c) 9 then String backslash "t"
  else if N.eqb (PyStr.code c) 10 then String backslash "n"
  else if N.eqb (PyStr.code c) 13 then String backslash "r"
  else if printable c then String c EmptyString
  else String backslash (String "x" (hex2 false (PyStr.code c))).

(** [repr(s)] for a [str]: single quotes unless the string holds a single
    quote and no double quote. *)
Definition repr_str (s : string) : string :=
  let q := if (has_char squote s && negb (has_char dquote s))%bool then dquote else squote in
  String q (String.concat EmptyString (map (repr_char q) (list_ascii_of_string s))
            ++ String q EmptyString).

(** [repr(v)] *)
Fixpoint repr (v : json) : string :=
  match v with
  | JNull => "None"
  | JBool true => "True"
  | JBool false => "False"
  | JNum n => PyStr.of_int n
  | JStr s => repr_str s
  | JArr l => "[" ++ String.concat ", " (map repr l) ++ "]"
  | JObj m =>
      "{" ++ String.concat ", "
               ((fix items (m : list (string * json)) : list string :=
                   match m with
                   | [] => []
                   | (k, x) :: m' => (repr_str k ++ ": " ++ repr x) :: items m'
                   end) m) ++ "}"
  end.

(** [str(v)], which an f-string applies to a value it formats. *)
Definition str (v : json) : string :=
  match v with
  | JStr s => s
  | _ => repr v
  end.

(** [urllib.parse.quote(s)]: letters, digits and [_.-~/] stay, every other
    character becomes the [%XX] of each byte of its UTF-8 encoding. *)
Definition quote_char (c : ascii) : string :=
  let n := PyStr.code c in
  if (PyStr.is_digit c || PyStr.between 65 90 c || PyStr.between 97 122 c
      || existsb (Ascii.eqb c) ["_"; "."; "-"; "~"; "/"]%char)%bool
  then String c EmptyString
  else if N.ltb n 128 then String "%" (hex2 true n)
  else String "%" (hex2 true (192 + N.div n 64))
       ++ String "%" (hex2 true (128 + N.modulo n 64)).

Definition quote (s : string) : string :=
  String.concat EmptyString (map quote_char (list_ascii_of_string s)).

(** [s.replace(a, b)] for one-character [a] and [b]. *)
Fixpoint replace_char (a b : ascii) (s : string) : string :=
  match s with
  | EmptyString => EmptyString
  | String c s' => String (if Ascii.eqb c a then b else c) (replace_char a b s')
  end.

End Py.

(** ** The part of [datetime] the cache uses

    A naive [datetime] is its seven fields. [datetime.now()] is a clock
    reading handed to the operation that takes it. *)

Module Datetime.

Record datetime : Type := mk {
  year : Z; month : Z; day : Z;
  hour : Z; minute : Z; second : Z; microsecond : Z
}.

Definition is_leap (y : Z) : bool :=
  ((y mod 4 =? 0) && (negb (y mod 100 =? 0) || (y mod 400 =? 0)))%bool.

Definition days_in_month (y m : Z) : Z :=
  if m =? 2 then (if is_leap y then 29 else 28)
  else if ((m =? 4) || (m =? 6) || (m =? 9) || (m =? 11))%bool then 30
  else 31.

(** Days before January 1st of year [y]. *)
Definition days_before_year (y : Z) : Z :=
  let p := y - 1 in p * 365 + p / 4 - p / 100 + p / 400.

(** Days of year [y] before the first day of month [m]. *)
Definition days_before_month (y m : Z) : Z :=
  fold_right Z.add 0
    (map (days_in_month y) (map Z.of_nat (seq 1 (Z.to_nat (m - 1))))).

(** The ordinal of a date, January 1st of year 1 being day 1. *)
Definition ymd2ord (y m d : Z) : Z :=
  days_before_year y + days_before_month y m + d.

(** The fields are those of a [datetime] object. *)
Definition valid (t : datetime) : Prop :=
  1 <= year t <= 9999 /\ 1 <= month t <= 12 /\
  1 <= day t <= days_in_month (year t) (month t) /\
  0 <= hour t < 24 /\ 0 <= minute t < 60 /\ 0 <= second t < 60 /\
  0 <= microsecond t < 1000000.

Definition validb (t : datetime) : bool :=
  ((1 <=? year t) && (year t <=? 9999) && (1 <=? month t) && (month t <=? 12)
   && (1 <=? day t) && (day t <=? days_in_month (year t) (month t))
   && (0 <=? hour t) && (hour t <? 24) && (0 <=? minute t) && (minute t <? 60)
   && (0 <=? second t) && (second t <? 60)
   && (0 <=? microsecond t) && (microsecond t <? 1000000))%bool.

(** Microseconds from the start of day 0 to [t]. The difference of two
    naive datetimes is the [timedelta] of that many microseconds. *)
Definition to_microseconds (t : datetime) : Z :=
  (((ymd2ord (year t) (month t) (day t) * 24 + hour t) * 60 + minute t) * 60
   + second t) * 1000000 + microsecond t.

(** [timedelta(seconds=s)] in microseconds. *)
Definition timedelta_seconds (s : Z) : Z := s * 1000000.

(** The [k] decimal digits of [n], most significant first: [%0kd]. *)
Fixpoint digits (k : nat) (n : Z) : string :=
  match k with
  | O => EmptyString
  | S k' => String (ascii_of_N (48 + Z.to_N ((n / 10 ^ Z.of_nat k') mod 10)))
                   (digits k' n)
  end.

(** [t.isoformat()] of a naive [datetime]:
    [YYYY-MM-DDTHH:MM:SS], then [.ffffff] when the microsecond is not 0. *)
Definition isoformat (t : datetime) : string :=
  digits 4 (year t) ++ "-" ++ digits 2 (month t) ++ "-" ++ digits 2 (day t)
  ++ "T" ++ digits 2 (hour t) ++ ":" ++ digits 2 (minute t) ++ ":"
  ++ digits 2 (second t)
  ++ (if microsecond t =? 0 then EmptyString else "." ++ digits 6 (microsecond t)).

(** What [datetime.fromisoformat] makes of a string: [ValueError], a naive
    datetime, or one with a UTC offset. *)
Inductive parsed : Type :=
  | Malformed
  | Naive (t : datetime)
  | Aware.

(** Reads exactly [k] decimal digits. *)
Fixpoint read_digits (k : nat) (acc : Z) (s : string) : option (Z * string) :=
  match k with
  | O => Some (acc, s)
  | S k' =>
      match s with
      | String c s' =>
          if PyStr.is_digit c
          then read_digits k' (10 * acc + (Z.of_N (PyStr.code c) - 48)) s'
          else None
      | EmptyString => None
      end
  end.

Definition expect (c : ascii) (s : string) : option string :=
  match s with
  | String c' s' => if Ascii.eqb c c' then Some s' else None
  | EmptyString => None
  end.

Definition checked (t : datetime) : parsed :=
  if validb t then Naive t else Malformed.

(** The time of day [HH:MM:SS[.ffffff]] after the separator. *)
Definition parse_time (y m d : Z) (s : string) : parsed :=
  match read_digits 2 0 s with
  | Some (hh, s1) =>
    match option_bind _ _ (read_digits 2 0) (expect ":" s1) with
    | Some (mi, s2) =>
      match option_bind _ _ (read_digits 2 0) (expect ":" s2) with
      | Some (ss, EmptyString) => checked (mk y m d hh mi ss 0)
      | Some (ss, String "." s3) =>
          match read_digits 6 0 s3 with
          | Some (us, EmptyString) => checked (mk y m d hh mi ss us)
          | _ => Malformed
          end
      | _ => Malformed
      end
    | None => Malformed
    end
  | None => Malformed
  end.

(** A reader for the layouts the cache meets: the date alone
    ([YYYY-MM-DD], the default of a missing [cached_at]) and what
    [isoformat] writes. [datetime.fromisoformat] reads these the same way;
    the cache operations below take the full function as a parameter. *)
Definition parse_iso (s : string) : parsed :=
  match read_digits 4 0 s with
  | Some (y, s1) =>
    match option_bind _ _ (read_digits 2 0) (expect "-" s1) with
    | Some (m, s2) =>
      match option_bind _ _ (read_digits 2 0) (expect "-" s2) with
      | Some (d, EmptyString) => checked (mk y m d 0 0 0 0)
      | Some (d, String _ s3) => parse_time y m d s3
      | None => Malformed
      end
    | None => Malformed
    end
  | None => Malformed
  end.

End Datetime.

(** ** The world the searcher runs in

    The cache directory is a finite map from file names to files, and a
    file is what [open] and [json.load] make of it: [Garbage] is text that
    is not JSON, on which [json.load] raises [JSONDecodeError];
    [Unreadable e] is a file on which they raise another exception [e]
    (bytes that are not UTF-8: [UnicodeDecodeError]; a number of more than
    4300 digits: [ValueError]; nesting too deep: [RecursionError]; a file
    that cannot be opened: [OSError]); [Document j] is a file of which
    [json.load] returns [j]. The network is the log of the URLs requested
    so far. *)

Inductive file : Type :=
  | Garbage
  | Unreadable (e : exn)
  | Document (j : json).

Record world : Type := mkWorld {
  disk : gmap string file;
  log : list string
}.

(** Code with effects: a result and the world after it. An exception
    keeps the effects that came before it. *)
Definition M (A : Type) : Type := world -> outcome A * world.

Definition ret {A : Type} (a : A) : M A := fun w => (Return a, w).

Definition mbind {A B : Type} (m : M A) (k : A -> M B) : M B :=
  fun w =>
    match m w with
    | (Return a, w') => k a w'
    | (Raise e, w') => (Raise e, w')
    end.

Definition lift {A : Type} (o : outcome A) : M A := fun w => (o, w).

Definition read_disk {A : Type} (f : gmap string file -> outcome A) : M A :=
  fun w => (f (disk w), w).

Definition write_disk (f : gmap string file -> gmap string file) : M unit :=
  fun w => (Return tt, mkWorld (f (disk w)) (log w)).

Declare Scope py_scope.
Delimit Scope py_scope with py.
Notation "x <- m ;; k" := (mbind m (fun x => k))
  (at level 100, m at next level, right associativity) : py_scope.
Notation "m ;;; k" := (mbind m (fun _ => k))
  (at level 100, right associativity) : py_scope.

(** ** [ImageResult] *)

Record ImageResult : Type := mkImageResult {
  name : json;
  registry : json;
  description : json;
  stars : json;
  pulls : json;
  official : json;
  latest_tag : json
}.

Definition field_names : list string :=
  ["name"; "registry"; "description"; "stars"; "pulls"; "official"; "latest_tag"].

(** [r.to_dict()], that is [asdict(r)]. *)
Definition to_dict (r : ImageResult) : json :=
  JObj [("name", name r); ("registry", registry r); ("description", description r);
        ("stars", stars r); ("pulls", pulls r); ("official", official r);
        ("latest_tag", latest_tag r)].

Definition or_default (o : option json) (d : json) : json :=
  match o with
  | Some v => v
  | None => d
  end.

(** [ImageResult] called with the items of [r] as keyword arguments: [r]
    must be a [dict] whose keys are field names and include the three
    fields without a default. *)
Definition of_kwargs (r : json) : outcome ImageResult :=
  match r with
  | JObj m =>
      if forallb (fun kv => existsb (String.eqb (fst kv)) field_names) m then
        match Py.assoc "name" m, Py.assoc "registry" m, Py.assoc "description" m with
        | Some n, Some g, Some d =>
            Return (mkImageResult n g d
                      (or_default (Py.assoc "stars" m) (JNum 0))
                      (or_default (Py.assoc "pulls" m) (JNum 0))
                      (or_default (Py.assoc "official" m) (JBool false))
                      (or_default (Py.assoc "latest_tag" m) (JStr "latest")))
        | _, _, _ => Raise TypeError
        end
      else Raise TypeError
  | _ => Raise TypeError
  end.

(** ** [RegistrySearcher] *)

Record RegistrySearcher : Type := mkSearcher { use_cache : bool }.

(** [CACHE_TTL = 3600  # 1 hour] *)
Definition CACHE_TTL : Z := 3600.

(** [CACHE_DIR / f"{key}.json"], as a name in the cache directory. For a
    key without a slash this name is the file; a key with slashes is a
    path, of which [pathlib] drops [./] and doubled slashes (see
    [flat_key] below). *)
Definition cache_file (key : string) : string := key ++ ".json".

(** [except (json.JSONDecodeError, KeyError)] *)
Definition handled (e : exn) : bool :=
  match e with
  | JSONDecodeError | KeyError => true
  | _ => false
  end.

(** [open(cache_file)] and [json.load(f)] *)
Definition json_load (f : file) : outcome json :=
  match f with
  | Garbage => Raise JSONDecodeError
  | Unreadable e => Raise e
  | Document j => Return j
  end.

(** ** Keys, payloads and URLs the libraries accept

    [_set_cached] and [_http_get] below describe the calls that return.
    The conditions here are enough for that on a cache directory that
    exists and can be written, under the interpreter's default limits. *)

(** A key without a slash names one file of the cache directory, and two
    such keys name two files. A key with a slash is a path: different
    keys can name the same file, and [open(cache_file, 'w')] raises
    [FileNotFoundError] when the path leads through a directory that does
    not exist. *)
Definition flat_key (key : string) : bool := negb (Py.has_char "/" key).

(** The length of [s] in UTF-8, the encoding of file names: one byte for
    a code point below 128, two for the others below 256. *)
Definition utf8_length (s : string) : N :=
  fold_right (fun c n => ((if N.ltb (PyStr.code c) 128 then 1 else 2) + n)%N) 0%N
    (list_ascii_of_string s).

(** The keys whose cache file [open] accepts: no slash, no NUL character
    ([ValueError]) and a file name of at most 255 bytes ([OSError] for a
    longer one, from [exists()] as well). *)
Definition storable_key (key : string) : bool :=
  (flat_key key && negb (Py.has_char "000" key)
   && N.leb (utf8_length (cache_file key)) 255)%bool.



(** The URLs [urlopen] sends: printable ASCII characters without the
    space. For a URL with another character the request raises
    [InvalidURL] or [UnicodeEncodeError], which [_http_get] does not
    catch. *)
Definition sendable_url (url : string) : bool :=
  forallb (PyStr.between 33 126) (list_ascii_of_string url).

Section Searcher.

  (** [datetime.fromisoformat] on a string. *)
  Variable fromisoformat : string -> Datetime.parsed.

  (** The registries: what [_http_get] returns for a URL after the
      requests logged so far, [JNull] when it returns [None]. *)
  Variable server : list string -> string -> json.

  (** [datetime.fromisoformat(v)] *)
Definition datetime_fromisoformat (v : json) : outcome Datetime.parsed :=
    match v with
    | JStr s =>
        match fromisoformat s with
        | Datetime.Malformed => Raise ValueError
        | p => Return p
        end
    | _ => Raise TypeError
    end.

  (** [now - cached_at < timedelta(seconds=CACHE_TTL)] *)
Definition fresh (now : Datetime.datetime) (cached_at : Datetime.parsed) : outcome bool :=
    match cached_at with
    | Datetime.Naive t =>
        Return (Datetime.to_microseconds now - Datetime.to_microseconds t
                <? Datetime.timedelta_seconds CACHE_TTL)
    | _ => Raise TypeError
    end.

  (** The [try] block of [_get_cached]: [Some v] when it returns [v],
      [None] when control leaves the block without returning. *)
Definition read_entry (now : Datetime.datetime) (f : file) : outcome (option json) :=
    Py.bind (json_load f) (fun data =>
    Py.bind (Py.get data "cached_at" (JStr "1970-01-01")) (fun stamp =>
    Py.bind (datetime_fromisoformat stamp) (fun cached_at =>
    Py.bind (fresh now cached_at) (fun ok =>
    if ok then Py.bind (Py.get data "data" JNull) (fun v => Return (Some v))
    else Return None)))).

  (** [_get_cached(self, key)] with the clock reading [now]; it only reads
      the cache directory. [JNull] is Python's [None]. *)
Definition _get_cached (self : RegistrySearcher) (now : Datetime.datetime)
      (key : string) (d : gmap string file) : outcome json :=
    if negb (use_cache self) then Return JNull
    else
      match d !! cache_file key with
      | Some f =>
          match read_entry now f with
          | Return (Some v) => Return v
          | Return None => Return JNull
          | Raise e => if handled e then Return JNull else Raise e
          end
      | None => Return JNull
      end.

  (** [_set_cached(self, key, data)] with the clock reading [now]: the
      cache directory after a call that returns. The call raises when
      [open] rejects the file name or [json.dump] the payload;
      [storable_key] and [storable] say when they do not. *)
Definition _set_cached (self : RegistrySearcher) (now : Datetime.datetime)
      (key : string) (data : json) (d : gmap string file) : gmap string file :=
    <[cache_file key :=
        Document (JObj [("cached_at", JStr (Datetime.isoformat now)); ("data", data)])]> d.

  (** [_http_get(self, url)]: one request, logged, of a call that
      returns. Its callers pass no headers. It returns [None] when
      [urlopen] raised a [URLError] or the body was not JSON; other
      exceptions ([InvalidURL], a body that is not UTF-8, a timeout while
      reading) are not caught, and such a call is not described here. *)
Definition _http_get (self : RegistrySearcher) (url : string) : M json :=
    fun w => (Return (server (log w) url), mkWorld (disk w) (url :: log w)).

  (** The list of the [ImageResult]s built from each [r in cached]. *)
Definition from_cached (cached : json) : outcome (list ImageResult) :=
    Py.bind (Py.iter cached) (Py.traverse of_kwargs).

  (** [not data or 'results' not in data] *)
Definition no_results (data : json) : outcome bool :=
    if negb (Py.truthy data) then Return true
    else Py.bind (Py.contains "results" data) (fun b => Return (negb b)).

  (** One turn of the loop of [search_docker_hub]. *)
Definition docker_hub_result (item : json) : outcome ImageResult :=
    Py.bind (Py.get item "repo_name" (JStr "")) (fun n =>
    Py.bind (Py.get item "short_description" JNull) (fun sd =>
    Py.bind (Py.or_empty_100 sd) (fun d =>
    Py.bind (Py.get item "star_count" (JNum 0)) (fun s =>
    Py.bind (Py.get item "pull_count" (JNum 0)) (fun p =>
    Py.bind (Py.get item "is_official" (JBool false)) (fun o =>
    Return (mkImageResult n (JStr "docker.io") d s p o (JStr "latest")))))))).

  (** One turn of the loop of [search_quay]. *)
Definition quay_result (item : json) : outcome ImageResult :=
    Py.bind (Py.get item "namespace" (JObj [])) (fun ns =>
    Py.bind (Py.get ns "name" (JStr "")) (fun namespace =>
    Py.bind (Py.get item "name" (JStr "")) (fun n =>
    Py.bind (Py.get item "description" JNull) (fun sd =>
    Py.bind (Py.or_empty_100 sd) (fun d =>
    Return (mkImageResult
              (JStr ("quay.io/" ++ Py.str namespace ++ "/" ++ Py.str n))
              (JStr "quay.io") d (JNum 0) (JNum 0) (JBool false) (JStr "latest"))))))).

  (** [search_docker_hub(self, term, limit)]; [t_get] and [t_set] are the
      clock readings of its cache read and of its cache write. *)
Definition search_docker_hub (self : RegistrySearcher) (t_get t_set : Datetime.datetime)
      (term : string) (limit : Z) : M (list ImageResult) :=
    (let cache_key := "dockerhub_" ++ term ++ "_" ++ PyStr.of_int limit in
     cached <- read_disk (_get_cached self t_get cache_key) ;;
     if Py.truthy cached then lift (from_cached cached)
     else
       let url := "https://hub.docker.com/v2/search/repositories/?query="
                  ++ Py.quote term ++ "&page_size=" ++ PyStr.of_int limit in
       data <- _http_get self url ;;
       none <- lift (no_results data) ;;
       if none : bool then ret []
       else
         items <- lift (Py.bind (Py.getitem data "results") Py.iter) ;;
         results <- lift (Py.traverse docker_hub_result items) ;;
         write_disk (_set_cached self t_set cache_key (JArr (map to_dict results))) ;;;
         ret results)%py.

  (** [search_quay(self, term, limit)] *)
Definition search_quay (self : RegistrySearcher) (t_get t_set : Datetime.datetime)
      (term : string) (limit : Z) : M (list ImageResult) :=
    (let cache_key := "quay_" ++ term ++ "_" ++ PyStr.of_int limit in
     cached <- read_disk (_get_cached self t_get cache_key) ;;
     if Py.truthy cached then lift (from_cached cached)
     else
       let url := "https://quay.io/api/v1/find/repositories?query="
                  ++ Py.quote term ++ "&page=1" in
       data <- _http_get self url ;;
       none <- lift (no_results data) ;;
       if none : bool then ret []
       else
         items <- lift (Py.bind (Py.getitem data "results") (fun rs =>
                        Py.bind (Py.slice_to limit rs) Py.iter)) ;;
         results <- lift (Py.traverse quay_result items) ;;
         write_disk (_set_cached self t_set cache_key (JArr (map to_dict results))) ;;;
         ret results)%py.

  (** The shape the two adapters share, with the cache key, the URL, the
      way the records are taken out of the response and the way one record
      is mapped left open. Both adapters are instances of it
      ([search_docker_hub_shape], [search_quay_shape]). *)
Definition cached_search (self : RegistrySearcher) (t_get t_set : Datetime.datetime)
      (cache_key url : string) (records : json -> outcome (list json))
      (result : json -> outcome ImageResult) : M (list ImageResult) :=
    (cached <- read_disk (_get_cached self t_get cache_key) ;;
     if Py.truthy cached then lift (from_cached cached)
     else
       data <- _http_get self url ;;
       none <- lift (no_results data) ;;
       if none : bool then ret []
       else
         items <- lift (records data) ;;
         results <- lift (Py.traverse result items) ;;
         write_disk (_set_cached self t_set cache_key (JArr (map to_dict results))) ;;;
         ret results)%py.

Definition docker_hub_key (term : string) (limit : Z) : string :=
    "dockerhub_" ++ term ++ "_" ++ PyStr.of_int limit.

Definition docker_hub_url (term : string) (limit : Z) : string :=
    "https://hub.docker.com/v2/search/repositories/?query="
    ++ Py.quote term ++ "&page_size=" ++ PyStr.of_int limit.

Definition docker_hub_records (data : json) : outcome (list json) :=
    Py.bind (Py.getitem data "results") Py.iter.

Definition quay_key (term : string) (limit : Z) : string :=
    "quay_" ++ term ++ "_" ++ PyStr.of_int limit.

Definition quay_url (term : string) : string :=
    "https://quay.io/api/v1/find/repositories?query=" ++ Py.quote term ++ "&page=1".

Definition quay_records (limit : Z) (data : json) : outcome (list json) :=
    Py.bind (Py.getitem data "results") (fun rs =>
    Py.bind (Py.slice_to limit rs) Py.iter).

  (** [[t['name'] for t in data['results'] if 'name' in t]] *)
Definition tag_names (items : list json) : outcome (list json) :=
    Py.bind (Py.traverse (fun t => Py.bind (Py.contains "name" t) (fun b =>
               if b : bool then Py.bind (Py.getitem t "name") (fun n => Return [n])
               else Return [])) items)
            (fun parts => Return (concat parts)).

  (** [get_tags(self, image, limit)]: the cached value when there is one,
      else the list of tag names. *)
Definition get_tags (self : RegistrySearcher) (t_get t_set : Datetime.datetime)
      (image : string) (limit : Z) : M json :=
    (let image := if PyStr.contains "/" image then image else "library/" ++ image in
     let cache_key := "tags_" ++ Py.replace_char "/" "_" image ++ "_" ++ PyStr.of_int limit in
     cached <- read_disk (_get_cached self t_get cache_key) ;;
     if Py.truthy cached then ret cached
     else
       let url := "https://hub.docker.com/v2/repositories/" ++ image
                  ++ "/tags?page_size=" ++ PyStr.of_int limit in
       data <- _http_get self url ;;
       none <- lift (no_results data) ;;
       if none : bool then ret (JArr [])
       else
         items <- lift (Py.bind (Py.getitem data "results") Py.iter) ;;
         tags <- lift (tag_names items) ;;
         write_disk (_set_cached self t_set cache_key (JArr tags)) ;;;
         ret (JArr tags))%py.

  (** The strings of a list of values, if all of them are strings. *)
Fixpoint strings (l : list json) : option (list string) :=
    match l with
    | [] => Some []
    | JStr s :: l' => option_map (cons s) (strings l')
    | _ :: _ => None
    end.

  (** [get_best_tag] from the value [get_tags] returned on. A tag that is
      not a [str] has no [lower]; a [dict] is ranked by its keys and has
      no item [0]. *)
Definition rank (tags : json) : outcome string :=
    if negb (Py.truthy tags) then Return "latest"
    else
      match tags with
      | JArr l =>
          match strings l with
          | Some ts => Return (Ranker.best_tag ts)
          | None => Raise AttributeError
          end
      | JStr s => Return (Ranker.best_tag (Py.chars s))
      | JObj m =>
          match Ranker.valid_tags (map fst m) with
          | [] => Raise KeyError
          | _ :: _ => Return (Ranker.best_tag (map fst m))
          end
      | _ => Raise TypeError
      end.

  (** [get_best_tag(self, image)] *)
Definition get_best_tag (self : RegistrySearcher) (t_get t_set : Datetime.datetime)
      (image : string) : M string :=
    (tags <- get_tags self t_get t_set image 50 ;;
     lift (rank tags))%py.

  (** [search_all(self, term, limit)]: the dict display calls the two
      adapters in order, Docker Hub first; the result is the dict's items.
      [t1], [t2] are the clock readings of the Docker Hub search, [t3],
      [t4] those of the Quay search. *)
Definition search_all (self : RegistrySearcher) (t1 t2 t3 t4 : Datetime.datetime)
      (term : string) (limit : Z) : M (list (string * list ImageResult)) :=
    (docker <- search_docker_hub self t1 t2 term limit ;;
     quay <- search_quay self t3 t4 term limit ;;
     ret [("docker_hub", docker); ("quay", quay)])%py.

End Searcher.

(** The image name, cache key and URL [get_tags] works with. *)
Definition tags_image (image : string) : string :=
  if PyStr.contains "/" image then image else "library/" ++ image.

Definition tags_key (image : string) (limit : Z) : string :=
  "tags_" ++ Py.replace_char "/" "_" (tags_image image) ++ "_" ++ PyStr.of_int limit.

Definition tags_url (image : string) (limit : Z) : string :=
  "https://hub.docker.com/v2/repositories/" ++ tags_image image
  ++ "/tags?page_size=" ++ PyStr.of_int limit.

(** ** Vocabulary of the properties *)

Section Order.
  Context {A : Type} (key : A -> list Z).

  (** [a] may stand before [b] in an ascending sort by [key]. *)
Definition key_le (a b : A) : Prop := PyList.lt (key b) (key a) = false.

  (** The running maximum of [m :: l]: a later element replaces it only
      when its key is strictly greater. *)
Definition scan (m : A) (l : list A) : A :=
    fold_left (fun m y => if PyList.lt (key m) (key y) then y else m) l m.

End Order.


(** A description as the adapters cut it: a string or a list of at most
    100 items. *)
Definition at_most_100 (v : json) : Prop :=
  match v with
  | JStr s => (String.length s <= 100)%nat
  | JArr l => (List.length l <= 100)%nat
  | _ => False
  end.

(** Sample data for the closed statements below. *)
Definition enabled : RegistrySearcher := mkSearcher true.
Definition disabled : RegistrySearcher := mkSearcher false.
Definition noon : Datetime.datetime := Datetime.mk 2024 2 29 12 0 0 0.
Definition ten_past_noon : Datetime.datetime := Datetime.mk 2024 2 29 12 10 0 0.
Definition no_files : gmap string file := ∅.

(** The age of an entry written at [t_set] when read at [t_get], in
    microseconds. *)
Definition age (t_get t_set : Datetime.datetime) : Z :=
  Datetime.to_microseconds t_get - Datetime.to_microseconds t_set.

Definition TTL : Z := Datetime.timedelta_seconds CACHE_TTL.

(** A registry that answers every request with the same two records. *)
Definition two_records : json :=
  JObj [("results",
         JArr [JObj [("repo_name", JStr "library/nginx");
                     ("short_description", JStr "Official build of Nginx.");
                     ("star_count", JNum 20000); ("pull_count", JNum 1000000);
                     ("is_official", JBool true);
                     ("namespace", JObj [("name", JStr "library")]);
                     ("name", JStr "nginx"); ("description", JNull)];
               JObj [("repo_name", JStr "bitnami/nginx");
                     ("star_count", JNum 190);
                     ("namespace", JObj [("name", JStr "bitnami")]);
                     ("name", JStr "nginx"); ("description", JStr "Bitnami image")]])].

Definition two_repos (_ : list string) (_ : string) : json := two_records.

(** A registry that cannot be reached: [_http_get] returns [None]. *)
Definition offline (_ : list string) (_ : string) : json := JNull.

(** A registry that finds nothing. *)
Definition no_match (_ : list string) (_ : string) : json := JObj [("results", JArr [])].

Definition start : world := mkWorld no_files [].

Definition first_run : outcome (list ImageResult) * world :=
  search_docker_hub Datetime.parse_iso two_repos enabled noon noon "nginx" 10 start.

Definition nginx_results : list ImageResult :=
  [mkImageResult (JStr "library/nginx") (JStr "docker.io") (JStr "Official build of Nginx.")
     (JNum 20000) (JNum 1000000) (JBool true) (JStr "latest");
   mkImageResult (JStr "bitnami/nginx") (JStr "docker.io") (JStr "")
     (JNum 190) (JNum 0) (JBool false) (JStr "latest")].

(** Two identical searches ten minutes apart, the registry out of reach. *)
Definition offline_first : outcome (list ImageResult) * world :=
  search_quay Datetime.parse_iso offline enabled noon noon "nginx" 10 start.

Definition offline_second : outcome (list ImageResult) * world :=
  search_quay Datetime.parse_iso offline enabled ten_past_noon ten_past_noon "nginx" 10
    (snd offline_first).

(** Two identical searches ten minutes apart that match nothing. *)
Definition no_match_first : outcome (list ImageResult) * world :=
  search_docker_hub Datetime.parse_iso no_match enabled noon noon "zzz" 10 start.

Definition no_match_second : outcome (list ImageResult) * world :=
  search_docker_hub Datetime.parse_iso no_match enabled ten_past_noon ten_past_noon "zzz" 10
    (snd no_match_first).

(** What decides whether a read raises: the shape of the stored value and
    of its timestamp. *)
Definition entry_error (fromisoformat : string -> Datetime.parsed) (j : json) : option exn :=
  match j with
  | JObj m =>
      match or_default (Py.assoc "cached_at" m) (JStr "1970-01-01") with
      | JStr s =>
          match fromisoformat s with
          | Datetime.Malformed => Some ValueError
          | Datetime.Aware => Some TypeError
          | Datetime.Naive _ => None
          end
      | _ => Some TypeError
      end
  | _ => Some AttributeError
  end.

(** A registry that lists the four tags of the ranking example. *)
Definition four_tags (_ : list string) (_ : string) : json :=
  JObj [("results", JArr [JObj [("name", JStr "1.2")]; JObj [("name", JStr "1.10")];
                          JObj [("name", JStr "1.9")]; JObj [("name", JStr "2.0")]])].

(** A first [search_all], both registries answering. *)
Definition all_first : outcome (list (string * list ImageResult)) * world :=
  search_all Datetime.parse_iso two_repos enabled noon noon noon noon "nginx" 10 start.

(** The value of a decimal numeral read from the left, [acc] being the
    value of the digits already read. *)
Fixpoint uint_value (acc : Z) (d : Decimal.uint) : Z :=
  match d with
  | Decimal.Nil => acc
  | Decimal.D0 l => uint_value (10 * acc + 0) l
  | Decimal.D1 l => uint_value (10 * acc + 1) l
  | Decimal.D2 l => uint_value (10 * acc + 2) l
  | Decimal.D3 l => uint_value (10 * acc + 3) l
  | Decimal.D4 l => uint_value (10 * acc + 4) l
  | Decimal.D5 l => uint_value (10 * acc + 5) l
  | Decimal.D6 l => uint_value (10 * acc + 6) l
  | Decimal.D7 l => uint_value (10 * acc + 7) l
  | Decimal.D8 l => uint_value (10 * acc + 8) l
  | Decimal.D9 l => uint_value (10 * acc + 9) l
  end.

Definition all_digits (s : string) : Prop :=
  forallb PyStr.is_digit (list_ascii_of_string s) = true.

(** * Properties *)

(** ** List comparison is a strict weak order *)

Lemma lt_irrefl (a : list Z) : PyList.lt a a = false.
Proof.
  induction a as [|x a IH]; simpl; [reflexivity|].
  rewrite Z.eqb_refl. exact IH.
Qed.

Lemma lt_trans (a b c : list Z) :
  PyList.lt a b = true -> PyList.lt b c = true -> PyList.lt a c = true.
Proof.
  revert b c.
  induction a as [|x a IH]; intros [|y b] [|z c]; simpl; try congruence.
  destruct (Z.eqb_spec x y), (Z.eqb_spec y z), (Z.eqb_spec x z);
    try lia; eauto; rewrite ?Z.ltb_lt; try lia; congruence.
Qed.

(** [a >= b] and [b >= c] give [a >= c]. *)
Lemma lt_neg_trans (a b c : list Z) :
  PyList.lt a b = false -> PyList.lt b c = false -> PyList.lt a c = false.
Proof.
  revert b c.
  induction a as [|x a IH]; intros [|y b] [|z c]; simpl; try congruence.
  destruct (Z.eqb_spec x y), (Z.eqb_spec y z), (Z.eqb_spec x z);
    try lia; eauto; rewrite ?Z.ltb_ge; try lia; congruence.
Qed.

Lemma lt_asym (a b : list Z) : PyList.lt a b = true -> PyList.lt b a = false.
Proof.
  intros H. destruct (PyList.lt b a) eqn:E; [|reflexivity].
  pose proof (lt_trans _ _ _ H E) as F. rewrite lt_irrefl in F. discriminate.
Qed.

Lemma lt_le_trans (a b c : list Z) :
  PyList.lt a b = true -> PyList.lt c b = false -> PyList.lt a c = true.
Proof.
  intros H1 H2. destruct (PyList.lt a c) eqn:E; [reflexivity|].
  pose proof (lt_neg_trans _ _ _ E H2). congruence.
Qed.

Lemma le_lt_trans (a b c : list Z) :
  PyList.lt b a = false -> PyList.lt b c = true -> PyList.lt a c = true.
Proof.
  intros H1 H2. destruct (PyList.lt a c) eqn:E; [reflexivity|].
  pose proof (lt_neg_trans _ _ _ H1 E). congruence.
Qed.

(** ** [list.sort] with [reverse=True] puts the first maximum in front *)

Section SortFacts.
  Context {A : Type} (key : A -> list Z).

Lemma In_insert (x z : A) (s : list A) :
    In z (PyList.insert key x s) <-> z = x \/ In z s.
Proof.
    induction s as [|y s IH]; simpl; [intuition|].
    destruct (PyList.lt (key y) (key x)); simpl; rewrite ?IH; intuition.
Qed.

Lemma insert_sorted (x : A) (s : list A) :
    StronglySorted (key_le key) s -> StronglySorted (key_le key) (PyList.insert key x s).
Proof.
    induction 1 as [|y s Hs IH Hy]; simpl.
    - constructor; constructor.
    - destruct (PyList.lt (key y) (key x)) eqn:E.
      + constructor; [exact IH|].
        apply List.Forall_forall. intros z Hz. apply In_insert in Hz as [->|Hz].
        * unfold key_le. now apply lt_asym.
        * rewrite List.Forall_forall in Hy. now apply Hy.
      + constructor; [now constructor|].
        constructor; [exact E|].
        apply List.Forall_forall. intros z Hz. rewrite List.Forall_forall in Hy.
        unfold key_le. eapply lt_neg_trans; [apply (Hy z Hz)|exact E].
Qed.

Lemma stable_sort_sorted (l : list A) : StronglySorted (key_le key) (PyList.stable_sort key l).
Proof.
    induction l as [|x l IH]; simpl; [constructor|].
    now apply insert_sorted.
Qed.

Lemma insert_not_nil (x : A) (s : list A) : PyList.insert key x s <> [].
Proof.
    destruct s as [|y s]; simpl; [discriminate|].
    destruct (PyList.lt (key y) (key x)); discriminate.
Qed.

Lemma le_last (y d : A) (s : list A) :
    StronglySorted (key_le key) (y :: s) -> key_le key y (List.last (y :: s) d).
Proof.
    intros H. inversion H as [|? ? _ Hy]; subst.
    destruct (exists_last (l := y :: s) ltac:(discriminate)) as (s' & z & E).
    rewrite E, last_last.
    destruct s' as [|y' s']; simpl in E; injection E as -> E.
    - unfold key_le. apply lt_irrefl.
    - rewrite List.Forall_forall in Hy. apply Hy. rewrite E. apply in_or_app. right. now left.
Qed.

  (** Where the inserted element ends up decides the last element. *)
Lemma last_insert (x d : A) (s : list A) :
    StronglySorted (key_le key) s ->
    List.last (PyList.insert key x s) d =
    match s with
    | [] => x
    | _ :: _ => if PyList.lt (key (List.last s d)) (key x) then x else List.last s d
    end.
Proof.
    induction s as [|y s IH]; intros Hs; [reflexivity|].
    cbn [PyList.insert].
    destruct (PyList.lt (key y) (key x)) eqn:E.
    - inversion Hs as [|? ? Hs' Hy]; subst.
      specialize (IH Hs').
      assert (Hl : List.last (y :: PyList.insert key x s) d
                   = List.last (PyList.insert key x s) d).
      { pose proof (insert_not_nil x s).
        destruct (PyList.insert key x s); [congruence|reflexivity]. }
      rewrite Hl, IH. destruct s as [|z s]; [simpl; now rewrite E|reflexivity].
    - pose proof (le_last y d s Hs) as Hle. unfold key_le in Hle.
      assert (F : PyList.lt (key (List.last (y :: s) d)) (key x) = false)
        by (eapply lt_neg_trans; eauto).
      rewrite F. reflexivity.
Qed.

Lemma last_stable_sort (x d : A) (l : list A) :
    List.last (PyList.stable_sort key (l ++ [x])) d
    = fold_right (fun y m => if PyList.lt (key m) (key y) then y else m) x l.
Proof.
    induction l as [|y l IH]; [reflexivity|].
    cbn [app PyList.stable_sort fold_right].
    fold (PyList.stable_sort key (l ++ [x])).
    rewrite last_insert by apply stable_sort_sorted.
    rewrite IH.
    destruct (PyList.stable_sort key (l ++ [x])) eqn:E; [|reflexivity].
    destruct l; simpl in E; [discriminate|exfalso; eapply insert_not_nil; exact E].
Qed.

  (** The head of the descending sort is the running maximum of a scan
      from the left. *)
Lemma sort_reverse_head (x d : A) (l : list A) :
    List.hd d (PyList.sort key true (x :: l)) = scan key x l.
Proof.
    unfold PyList.sort, scan.
    assert (H : forall s : list A, List.hd d (List.rev s) = List.last s d).
    { intros s. destruct (list_eq_nil_dec s) as [->|Hs]; [reflexivity|].
      destruct (exists_last Hs) as (s' & z & ->).
      rewrite rev_app_distr, last_last. reflexivity. }
    rewrite H. cbn [List.rev]. rewrite last_stable_sort.
    symmetry.
    exact (eq_sym (fold_left_rev_right
                     (fun y m => if PyList.lt (key m) (key y) then y else m) l x)).
Qed.

Lemma scan_ge (m : A) (l : list A) : PyList.lt (key (scan key m l)) (key m) = false.
Proof.
    revert m. induction l as [|y l IH]; intros m; [apply lt_irrefl|].
    unfold scan in *. cbn [fold_left].
    destruct (PyList.lt (key m) (key y)) eqn:E; [|apply IH].
    eapply lt_neg_trans; [apply IH|now apply lt_asym].
Qed.

  (** The scan key returns the earliest element whose key is maximal. *)
Lemma scan_first_max (m : A) (l : list A) :
    exists l1 l2,
      m :: l = (l1 ++ scan key m l :: l2)%list /\
      Forall (fun t => PyList.lt (key t) (key (scan key m l)) = true) l1 /\
      Forall (fun t => PyList.lt (key (scan key m l)) (key t) = false) l2.
Proof.
    revert m. induction l as [|y l IH]; intros m.
    - exists [], []. repeat split; constructor.
    - assert (Hs : scan key m (y :: l)
                   = scan key (if PyList.lt (key m) (key y) then y else m) l) by reflexivity.
      rewrite Hs. destruct (PyList.lt (key m) (key y)) eqn:E.
      + destruct (IH y) as (l1 & l2 & E1 & H1 & H2).
        exists (m :: l1), l2. repeat split; [simpl; congruence| |exact H2].
        constructor; [|exact H1].
        eapply lt_le_trans; [exact E|apply scan_ge].
      + destruct (IH m) as (l1 & l2 & E1 & H1 & H2).
        destruct l1 as [|m' l1]; simpl in E1; injection E1 as E0 E1.
        * exists [], (y :: l2). repeat split; [simpl; congruence|constructor|].
          constructor; [|exact H2]. rewrite <- E0. exact E.
        * subst m'. inversion H1 as [|? ? Hm H1']; subst.
          exists (m :: y :: l1), l2. repeat split; [simpl; congruence| |exact H2].
          constructor; [exact Hm|]. constructor; [|exact H1'].
          eapply le_lt_trans; [exact E|exact Hm].
Qed.

End SortFacts.

(** ** Tag ranking *)

Lemma best_tag_of_valid (tags : list string) (v : string) (vs : list string) :
  Ranker.valid_tags tags = v :: vs ->
  Ranker.best_tag tags = scan Ranker.version_key v vs.
Proof.
  intros E. unfold Ranker.best_tag.
  destruct tags as [|first rest]; [discriminate|].
  rewrite E. apply sort_reverse_head.
Qed.

Lemma valid_tags_In (tags : list string) (t : string) :
  In t (Ranker.valid_tags tags) <->
  In t tags /\ Ranker.excluded t = false /\ Ranker.semver_pattern t = true.
Proof.
  unfold Ranker.valid_tags. rewrite filter_In, andb_true_iff, negb_true_iff.
  reflexivity.
Qed.

Lemma in_exclude_In (s : string) : Ranker.in_exclude s = true <-> In s Ranker.exclude.
Proof.
  unfold Ranker.in_exclude. rewrite existsb_exists. split.
  - intros (w & Hw & E). apply String.eqb_eq in E. now subst.
  - intros H. exists s. split; [exact H|apply String.eqb_refl].
Qed.

(** The words of the exclusion set are in lower case. *)
Lemma exclude_lower (w : string) : In w Ranker.exclude -> PyStr.lower w = w.
Proof.
  unfold Ranker.exclude. simpl.
  intros H; repeat (destruct H as [<-|H]; [reflexivity|]); destruct H.
Qed.

(** The tag that is returned when some tag is valid is one of the valid
    tags, the earliest among those with the greatest key. *)
Lemma best_tag_first_max (tags : list string) :
  Ranker.valid_tags tags <> [] ->
  exists l1 l2,
    Ranker.valid_tags tags = (l1 ++ Ranker.best_tag tags :: l2)%list /\
    Forall (fun t => PyList.lt (Ranker.version_key t)
                       (Ranker.version_key (Ranker.best_tag tags)) = true) l1 /\
    Forall (fun t => PyList.lt (Ranker.version_key (Ranker.best_tag tags))
                       (Ranker.version_key t) = false) l2.
Proof.
  intros Hne. destruct (Ranker.valid_tags tags) as [|v vs] eqn:E; [congruence|].
  rewrite (best_tag_of_valid _ _ _ E). apply scan_first_max.
Qed.

(** C5. Ranking examples: from the tags 1.2, 1.10, 1.9, 2.0 the best tag is
    2.0; from the single tag 1.2 it is 1.2; from no tag at all it is the
    literal latest. The same holds of [rank] on the fetched list. *)
Theorem best_tag_examples :
  Ranker.best_tag ["1.2"; "1.10"; "1.9"; "2.0"] = "2.0" /\
  Ranker.best_tag ["1.2"] = "1.2" /\
  Ranker.best_tag [] = "latest" /\
  rank (JArr [JStr "1.2"; JStr "1.10"; JStr "1.9"; JStr "2.0"]) = Return "2.0" /\
  rank (JArr [JStr "1.2"]) = Return "1.2" /\
  rank (JArr []) = Return "latest".
Proof.
  repeat split; vm_compute; reflexivity.
Qed.

(** C6. The exclusion filter removes a tag exactly when the whole tag, in
    lower case, is one of the thirteen words; 3.0.0-rc1 is not removed,
    matches the release shape, and so stays a ranking candidate. *)
Theorem exclusion_matches_whole_tag :
  (forall t, Ranker.excluded t = true <->
             exists w, In w Ranker.exclude /\ PyStr.lower t = PyStr.lower w) /\
  Ranker.exclude =
    ["latest"; "edge"; "nightly"; "dev"; "develop"; "master"; "main";
     "unstable"; "beta"; "alpha"; "rc"; "test"; "testing"] /\
  Ranker.excluded "3.0.0-rc1" = false /\
  Ranker.semver_pattern "3.0.0-rc1" = true /\
  (forall tags, In "3.0.0-rc1" tags -> In "3.0.0-rc1" (Ranker.valid_tags tags)).
Proof.
  split; [|split; [reflexivity|split; [reflexivity|split; [reflexivity|]]]].
  - intros t. unfold Ranker.excluded. rewrite in_exclude_In. split.
    + intros H. exists (PyStr.lower t). split; [exact H|].
      symmetry. now apply exclude_lower.
    + intros (w & Hw & E). rewrite E, (exclude_lower w Hw). exact Hw.
  - intros tags H. apply valid_tags_In. now repeat split.
Qed.

(** C7. When some tag matches the release shape and is not excluded, the
    returned tag is not in the exclusion set, in any letter case; it is
    one of the valid tags. *)
Theorem best_tag_never_excluded (tags : list string) :
  (exists t, In t tags /\ Ranker.semver_pattern t = true /\ Ranker.excluded t = false) ->
  Ranker.excluded (Ranker.best_tag tags) = false /\
  ~ In (Ranker.best_tag tags) Ranker.exclude /\
  In (Ranker.best_tag tags) (Ranker.valid_tags tags).
Proof.
  intros (t & Hin & Hshape & Hex).
  assert (Hne : Ranker.valid_tags tags <> []).
  { intros E. assert (H : In t (Ranker.valid_tags tags)) by now apply valid_tags_In.
    rewrite E in H. destruct H. }
  destruct (best_tag_first_max tags Hne) as (l1 & l2 & E & _ & _).
  assert (Hb : In (Ranker.best_tag tags) (Ranker.valid_tags tags)).
  { rewrite E. apply in_or_app. right. now left. }
  pose proof Hb as Hv. apply valid_tags_In in Hv as (_ & Hx & _).
  repeat split; [exact Hx| |exact Hb].
  intros Hw. unfold Ranker.excluded in Hx.
  rewrite (exclude_lower _ Hw) in Hx.
  apply in_exclude_In in Hw. congruence.
Qed.

Lemma best_tag_never_excluded_witness :
  Ranker.excluded (Ranker.best_tag ["latest"; "rc"; "1.4"; "RC"; "2.0-beta"]) = false /\
  ~ In (Ranker.best_tag ["latest"; "rc"; "1.4"; "RC"; "2.0-beta"]) Ranker.exclude /\
  In (Ranker.best_tag ["latest"; "rc"; "1.4"; "RC"; "2.0-beta"])
     (Ranker.valid_tags ["latest"; "rc"; "1.4"; "RC"; "2.0-beta"]).
Proof.
  apply (best_tag_never_excluded ["latest"; "rc"; "1.4"; "RC"; "2.0-beta"]).
  exists "1.4". split; [simpl; tauto|split; reflexivity].
Defined.

(** C8. When the tag list is not empty and no tag of it both survives the
    exclusion filter and matches the release shape, the first tag of the
    list as fetched is returned. *)
Theorem best_tag_fallback (first : string) (rest : list string) :
  (forall t, In t (first :: rest) ->
             Ranker.excluded t = true \/ Ranker.semver_pattern t = false) ->
  Ranker.best_tag (first :: rest) = first.
Proof.
  intros H. unfold Ranker.best_tag.
  destruct (Ranker.valid_tags (first :: rest)) as [|v vs] eqn:E; [reflexivity|].
  assert (Hv : In v (Ranker.valid_tags (first :: rest))) by (rewrite E; now left).
  apply valid_tags_In in Hv as (Hin & Hx & Hs).
  destruct (H v Hin); congruence.
Qed.

Lemma best_tag_fallback_witness :
  Ranker.best_tag ["stable"; "latest"; "1.2.3.4"; "Edge"] = "stable".
Proof.
  apply (best_tag_fallback "stable" ["latest"; "1.2.3.4"; "Edge"]).
  intros t [<-|[<-|[<-|[<-|[]]]]]; vm_compute; tauto.
Defined.

(** C10. Ties: the returned tag splits the surviving tags, in fetched
    order, into tags with a strictly smaller key before it and tags whose
    key is not greater after it. So among surviving tags that share its
    key it is the earliest: no tag before it has the same key. *)
Theorem best_tag_ties_keep_fetched_order (tags : list string) :
  Ranker.valid_tags tags <> [] ->
  exists l1 l2,
    Ranker.valid_tags tags = (l1 ++ Ranker.best_tag tags :: l2)%list /\
    Forall (fun t => PyList.lt (Ranker.version_key t)
                       (Ranker.version_key (Ranker.best_tag tags)) = true
                     /\ Ranker.version_key t <> Ranker.version_key (Ranker.best_tag tags)) l1 /\
    Forall (fun t => PyList.lt (Ranker.version_key (Ranker.best_tag tags))
                       (Ranker.version_key t) = false) l2.
Proof.
  intros Hne. destruct (best_tag_first_max tags Hne) as (l1 & l2 & E & H1 & H2).
  exists l1, l2. repeat split; [exact E| |exact H2].
  eapply List.Forall_impl; [|exact H1]. intros t Ht. cbv beta in Ht. split; [exact Ht|].
  intros Heq. rewrite Heq, lt_irrefl in Ht. discriminate.
Qed.

(** The three tags of the example have the key (1, 2, 0, 0), and whichever
    of them was fetched first is the one returned. *)
Lemma best_tag_ties_example :
  map Ranker.version_key ["1.2"; "1.2-alpha"; "v1.2.0"]
    = [[1; 2; 0; 0]; [1; 2; 0; 0]; [1; 2; 0; 0]] /\
  Ranker.best_tag ["1.2"; "1.2-alpha"; "v1.2.0"] = "1.2" /\
  Ranker.best_tag ["1.2-alpha"; "v1.2.0"; "1.2"] = "1.2-alpha" /\
  Ranker.best_tag ["0.9"; "v1.2.0"; "1.2"; "1.2-alpha"] = "v1.2.0".
Proof.
  repeat split; vm_compute; reflexivity.
Qed.

Lemma best_tag_ties_keep_fetched_order_witness :
  exists l1 l2,
    Ranker.valid_tags ["0.9"; "v1.2.0"; "edge"; "1.2"; "1.2-alpha"]
    = (l1 ++ Ranker.best_tag ["0.9"; "v1.2.0"; "edge"; "1.2"; "1.2-alpha"] :: l2)%list /\
    Forall (fun t =>
              PyList.lt (Ranker.version_key t)
                (Ranker.version_key
                   (Ranker.best_tag ["0.9"; "v1.2.0"; "edge"; "1.2"; "1.2-alpha"])) = true
              /\ Ranker.version_key t
                 <> Ranker.version_key
                      (Ranker.best_tag ["0.9"; "v1.2.0"; "edge"; "1.2"; "1.2-alpha"])) l1 /\
    Forall (fun t =>
              PyList.lt
                (Ranker.version_key
                   (Ranker.best_tag ["0.9"; "v1.2.0"; "edge"; "1.2"; "1.2-alpha"]))
                (Ranker.version_key t) = false) l2.
Proof.
  apply (best_tag_ties_keep_fetched_order ["0.9"; "v1.2.0"; "edge"; "1.2"; "1.2-alpha"]).
  vm_compute. discriminate.
Defined.

(** ** Timestamps: reading back what [isoformat] wrote *)

Lemma digit_char (d : Z) :
  0 <= d < 10 ->
  PyStr.is_digit (ascii_of_N (48 + Z.to_N d)) = true /\
  Z.of_N (PyStr.code (ascii_of_N (48 + Z.to_N d))) - 48 = d.
Proof.
  intros H.
  assert (E : PyStr.code (ascii_of_N (48 + Z.to_N d)) = (48 + Z.to_N d)%N).
  { unfold PyStr.code. apply N_ascii_embedding. lia. }
  unfold PyStr.is_digit, PyStr.between. rewrite E. split; [|lia].
  apply andb_true_iff. split; apply N.leb_le; lia.
Qed.

Lemma append_cons (c : ascii) (s r : string) : String c s ++ r = String c (s ++ r).
Proof. reflexivity. Qed.

Lemma append_nil_l (r : string) : EmptyString ++ r = r.
Proof. reflexivity. Qed.

Lemma append_nil_r (s : string) : s ++ EmptyString = s.
Proof.
  induction s as [|c s IH]; [reflexivity|]. rewrite append_cons. now rewrite IH.
Qed.

Ltac push_append := repeat (rewrite append_cons || rewrite append_nil_l).

Lemma read_digits_digits (k : nat) (acc n : Z) (rest : string) :
  Datetime.read_digits k acc (Datetime.digits k n ++ rest)
  = Some (acc * 10 ^ Z.of_nat k + n mod 10 ^ Z.of_nat k, rest).
Proof.
  revert acc. induction k as [|k IH]; intros acc.
  - simpl. rewrite Z.mod_1_r. f_equal. f_equal. lia.
  - cbn [Datetime.digits Datetime.read_digits]. rewrite append_cons.
    assert (Hd : 0 <= (n / 10 ^ Z.of_nat k) mod 10 < 10) by (apply Z.mod_pos_bound; lia).
    destruct (digit_char _ Hd) as [-> ->].
    rewrite IH. f_equal. f_equal.
    rewrite Nat2Z.inj_succ, Z.pow_succ_r by lia.
    rewrite (Z.mul_comm 10 (10 ^ Z.of_nat k)), Z.rem_mul_r by lia. ring.
Qed.

Lemma read_digits_exact (k : nat) (n : Z) (rest : string) :
  0 <= n < 10 ^ Z.of_nat k ->
  Datetime.read_digits k 0 (Datetime.digits k n ++ rest) = Some (n, rest).
Proof.
  intros H. rewrite read_digits_digits, Z.mod_small by exact H. reflexivity.
Qed.

Lemma days_in_month_bound (y m : Z) : 28 <= Datetime.days_in_month y m <= 31.
Proof.
  unfold Datetime.days_in_month.
  destruct (m =? 2); [destruct (Datetime.is_leap y); lia|].
  destruct ((m =? 4) || (m =? 6) || (m =? 9) || (m =? 11))%bool; lia.
Qed.

Lemma validb_valid (t : Datetime.datetime) : Datetime.valid t -> Datetime.validb t = true.
Proof.
  unfold Datetime.valid, Datetime.validb. intros H.
  repeat (apply andb_true_iff; split); first [apply Z.leb_le|apply Z.ltb_lt]; lia.
Qed.

Lemma valid_of_validb (t : Datetime.datetime) : Datetime.validb t = true -> Datetime.valid t.
Proof.
  unfold Datetime.valid, Datetime.validb. intros H.
  repeat (apply andb_true_iff in H; destruct H as [H ?]).
  repeat match goal with
         | H : (_ <=? _) = true |- _ => apply Z.leb_le in H
         | H : (_ <? _) = true |- _ => apply Z.ltb_lt in H
         end.
  lia.
Qed.

(** [parse_iso] reads back every datetime that [isoformat] wrote. *)
Lemma parse_iso_isoformat (t : Datetime.datetime) :
  Datetime.valid t -> Datetime.parse_iso (Datetime.isoformat t) = Datetime.Naive t.
Proof.
  intros Hv. pose proof (validb_valid t Hv) as Hb.
  destruct t as [y m d hh mi ss us]. unfold Datetime.valid in Hv. simpl in Hv.
  pose proof (days_in_month_bound y m).
  unfold Datetime.parse_iso, Datetime.isoformat.
  cbn [Datetime.year Datetime.month Datetime.day Datetime.hour Datetime.minute
       Datetime.second Datetime.microsecond].
  rewrite read_digits_exact by lia.
  push_append. cbn [Datetime.expect Ascii.eqb Bool.eqb option_bind].
  rewrite read_digits_exact by lia.
  push_append. cbn [Datetime.expect Ascii.eqb Bool.eqb option_bind].
  rewrite read_digits_exact by lia.
  push_append. unfold Datetime.parse_time.
  rewrite read_digits_exact by lia.
  push_append. cbn [Datetime.expect Ascii.eqb Bool.eqb option_bind].
  rewrite read_digits_exact by lia.
  push_append. cbn [Datetime.expect Ascii.eqb Bool.eqb option_bind].
  rewrite read_digits_exact by lia.
  destruct (Z.eqb_spec us 0) as [->|Hus].
  - unfold Datetime.checked. now rewrite Hb.
  - push_append.
    rewrite <- (append_nil_r (Datetime.digits 6 us)) at 1.
    rewrite read_digits_exact by lia.
    unfold Datetime.checked. now rewrite Hb.
Qed.

(** ** The cache store *)

(** [_set_cached] never looks at [use_cache]. *)
Lemma set_cached_any_searcher (s1 s2 : RegistrySearcher) now key data d :
  _set_cached s1 now key data d = _set_cached s2 now key data d.
Proof. reflexivity. Qed.

Section CacheFacts.

  Variable fromisoformat : string -> Datetime.parsed.

  (** [datetime.fromisoformat] is the inverse of [datetime.isoformat]. *)
  Hypothesis fromisoformat_isoformat :
    forall t, Datetime.valid t -> fromisoformat (Datetime.isoformat t) = Datetime.Naive t.

Lemma read_entry_written (t_get t_set : Datetime.datetime) (data : json) :
    Datetime.valid t_set ->
    read_entry fromisoformat t_get
      (Document (JObj [("cached_at", JStr (Datetime.isoformat t_set)); ("data", data)]))
    = Return (if age t_get t_set <? TTL then Some data else None).
Proof using fromisoformat_isoformat.
    intros Hv. unfold read_entry, datetime_fromisoformat. cbn.
    rewrite (fromisoformat_isoformat _ Hv). cbn.
    unfold age, TTL. destruct (_ <? _); reflexivity.
Qed.

  (** What a read finds right after a write, for any state of the cache
      directory before the write. *)
Lemma get_after_set (self writer : RegistrySearcher) (key : string) (data : json)
      (t_set t_get : Datetime.datetime) (d : gmap string file) :
    use_cache self = true ->
    Datetime.valid t_set ->
    _get_cached fromisoformat self t_get key (_set_cached writer t_set key data d)
    = Return (if age t_get t_set <? TTL then data else JNull).
Proof using fromisoformat_isoformat.
    intros Hu Hv. unfold _get_cached, _set_cached. rewrite Hu. cbn [negb].
    rewrite lookup_insert_eq, (read_entry_written _ _ _ Hv).
    destruct (_ <? _); reflexivity.
Qed.


End CacheFacts.



(** C1. [_get_cached] raises on cache files the claim lists: valid JSON of
    the wrong shape (an array) raises [AttributeError], a [cached_at] that
    is not a string raises [TypeError], and a [cached_at] string that is
    not a timestamp raises [ValueError]; the handler catches none of them. *)
Theorem get_cached_raises_on_corrupt_entry :
  (forall fromisoformat now key d,
     _get_cached fromisoformat enabled now key (<[cache_file key := Document (JArr [])]> d)
     = Raise AttributeError) /\
  (forall fromisoformat now key d,
     _get_cached fromisoformat enabled now key
       (<[cache_file key := Document (JObj [("cached_at", JNum 0); ("data", JArr [])])]> d)
     = Raise TypeError) /\
  (forall now key d,
     _get_cached Datetime.parse_iso enabled now key
       (<[cache_file key :=
            Document (JObj [("cached_at", JStr "yesterday"); ("data", JArr [])])]> d)
     = Raise ValueError).
Proof.
  repeat split; intros; unfold _get_cached; cbn [negb use_cache enabled];
    rewrite lookup_insert_eq; reflexivity.
Qed.

(** X2. What [_get_cached] does, with caching enabled and a key that is a
    file name, when there is no JSON to read: without a cache file it
    reports a miss; with a file that is not JSON ([JSONDecodeError]) it
    reports a miss; with a file on which [open] or [json.load] raise an
    exception the handler does not name ([UnicodeDecodeError] for bytes
    that are not UTF-8, [ValueError] for a number of more than 4300
    digits, [RecursionError], [OSError]) it raises that exception. *)
Theorem get_cached_without_json fromisoformat self now key (d : gmap string file) :
  use_cache self = true ->
  storable_key key = true ->
  (d !! cache_file key = None ->
   _get_cached fromisoformat self now key d = Return JNull) /\
  (d !! cache_file key = Some Garbage ->
   _get_cached fromisoformat self now key d = Return JNull) /\
  (forall e, handled e = false ->
             d !! cache_file key = Some (Unreadable e) ->
             _get_cached fromisoformat self now key d = Raise e).
Proof.
  intros Hu _. unfold _get_cached. rewrite Hu. cbn [negb].
  split; [|split].
  - now intros ->.
  - now intros ->.
  - intros e He ->. cbn [read_entry json_load Py.bind]. now rewrite He.
Qed.

Lemma get_cached_without_json_witness :
  _get_cached Datetime.parse_iso enabled noon "k"
    (<[cache_file "k" := Unreadable UnicodeDecodeError]> no_files)
  = Raise UnicodeDecodeError.
Proof.
  apply (get_cached_without_json Datetime.parse_iso enabled noon "k"
           (<[cache_file "k" := Unreadable UnicodeDecodeError]> no_files)
           eq_refl eq_refl).
  - reflexivity.
  - apply lookup_insert_eq.
Defined.

(** C2. With caching disabled every read is a miss, but a write still
    stores the entry: [_set_cached] has no [use_cache] guard, so the cache
    directory changes. *)
Theorem disabled_cache_still_writes :
  (forall fromisoformat now key d,
     _get_cached fromisoformat disabled now key d = Return JNull) /\
  (forall now key data d,
     _set_cached disabled now key data d !! cache_file key
     = Some (Document (JObj [("cached_at", JStr (Datetime.isoformat now));
                             ("data", data)]))) /\
  _set_cached disabled noon "quay_nginx_10" (JArr []) no_files <> no_files.
Proof.
  split; [reflexivity|split].
  - intros. unfold _set_cached. apply lookup_insert_eq.
  - intros E. apply (f_equal (fun m => m !! cache_file "quay_nginx_10")) in E.
    unfold _set_cached in E. rewrite lookup_insert_eq in E. discriminate.
Qed.

(** ** The search adapters *)

Lemma of_kwargs_to_dict (r : ImageResult) : of_kwargs (to_dict r) = Return r.
Proof. destruct r. reflexivity. Qed.

Lemma from_cached_to_dict (rs : list ImageResult) :
  from_cached (JArr (map to_dict rs)) = Return rs.
Proof.
  unfold from_cached. cbn [Py.iter Py.bind].
  induction rs as [|r rs IH]; [reflexivity|].
  cbn [map Py.traverse]. rewrite of_kwargs_to_dict. cbn [Py.bind].
  rewrite IH. reflexivity.
Qed.

Lemma traverse_length {A B : Type} (f : A -> outcome B) (l : list A) (rs : list B) :
  Py.traverse f l = Return rs -> List.length rs = List.length l.
Proof.
  revert rs. induction l as [|x l IH]; intros rs; cbn [Py.traverse].
  - intros [= <-]. reflexivity.
  - destruct (f x) as [y|e]; cbn [Py.bind]; [|discriminate].
    destruct (Py.traverse f l) as [ys|e]; cbn [Py.bind]; [|discriminate].
    intros [= <-]. cbn [List.length]. f_equal. now apply IH.
Qed.

Lemma cons_neq {A : Type} (x : A) (l : list A) : x :: l <> l.
Proof.
  intros E. apply (f_equal (@List.length A)) in E. cbn [List.length] in E. lia.
Qed.

Section AdapterFacts.

  Variable fromisoformat : string -> Datetime.parsed.
  Variable server : list string -> string -> json.
  Variable self : RegistrySearcher.
  Variables t_get t_set : Datetime.datetime.
  Variables cache_key url : string.
  Variable records : json -> outcome (list json).
  Variable result : json -> outcome ImageResult.

  (** The adapter as a whole, and the world after its request. *)
  Local Abbreviation the_search :=
    (cached_search fromisoformat server self t_get t_set cache_key url records result).
  Local Abbreviation requested w := (mkWorld (disk w) (url :: log w)).

  (** Every way a search can go. *)
Lemma cached_search_cases (w : world) :
    match _get_cached fromisoformat self t_get cache_key (disk w) with
    | Raise e => the_search w = (Raise e, w)
    | Return cached =>
        if Py.truthy cached then the_search w = (from_cached cached, w)
        else
          match no_results (server (log w) url) with
          | Raise e => the_search w = (Raise e, requested w)
          | Return true => the_search w = (Return [], requested w)
          | Return false =>
              match Py.bind (records (server (log w) url)) (Py.traverse result) with
              | Raise e => the_search w = (Raise e, requested w)
              | Return results =>
                  the_search w =
                  (Return results,
                   mkWorld (_set_cached self t_set cache_key
                              (JArr (map to_dict results)) (disk w))
                           (url :: log w))
              end
          end
    end.
Proof.
    unfold cached_search, mbind, read_disk, lift, ret, write_disk, _http_get.
    destruct (_get_cached fromisoformat self t_get cache_key (disk w)) as [cached|e];
      [|reflexivity].
    destruct (Py.truthy cached); [reflexivity|]. cbn [disk log].
    destruct (no_results (server (log w) url)) as [[|]|e]; try reflexivity.
    destruct (records (server (log w) url)) as [items|e]; cbn [Py.bind]; [|reflexivity].
    destruct (Py.traverse result items) as [results|e]; reflexivity.
Qed.

  (** A search sends at most one request. *)
Lemma cached_search_log (w : world) :
    log (snd (the_search w)) = log w \/ log (snd (the_search w)) = url :: log w.
Proof.
    pose proof (cached_search_cases w) as H.
    destruct (_get_cached fromisoformat self t_get cache_key (disk w)) as [cached|e];
      [|rewrite H; now left].
    destruct (Py.truthy cached); [rewrite H; now left|].
    destruct (no_results (server (log w) url)) as [[|]|e]; try (rewrite H; now right).
    destruct (Py.bind (records (server (log w) url)) (Py.traverse result));
      rewrite H; now right.
Qed.

  (** A search that returned after a request either found no result field
      and left the cache alone, or mapped the records of the response and
      stored what it returns. *)
Lemma cached_search_fetched (w w1 : world) (rs : list ImageResult) :
    the_search w = (Return rs, w1) ->
    log w1 <> log w ->
    log w1 = url :: log w /\
    ((rs = [] /\ disk w1 = disk w) \/
     (disk w1 = _set_cached self t_set cache_key (JArr (map to_dict rs)) (disk w) /\
      exists items, records (server (log w) url) = Return items /\
                    Py.traverse result items = Return rs)).
Proof.
    intros Hrun Hlog. pose proof (cached_search_cases w) as H.
    destruct (_get_cached fromisoformat self t_get cache_key (disk w)) as [cached|e];
      [|congruence].
    destruct (Py.truthy cached).
    { rewrite H in Hrun. injection Hrun as _ <-. congruence. }
    destruct (no_results (server (log w) url)) as [[|]|e]; [| |congruence].
    { rewrite H in Hrun. injection Hrun as <- <-. split; [reflexivity|]. now left. }
    destruct (records (server (log w) url)) as [items|e] eqn:Hitems;
      cbn [Py.bind] in H; [|congruence].
    destruct (Py.traverse result items) as [results|e] eqn:Hres; [|congruence].
    rewrite H in Hrun. injection Hrun as <- <-. split; [reflexivity|].
    right. split; [reflexivity|]. now exists items.
Qed.

  (** A search that finds its own results in the cache returns them and
      touches neither the network nor the cache directory. *)
Lemma cached_search_hit (w : world) (rs : list ImageResult) :
    _get_cached fromisoformat self t_get cache_key (disk w) = Return (JArr (map to_dict rs)) ->
    rs <> [] ->
    the_search w = (Return rs, w).
Proof.
    intros Hget Hne. pose proof (cached_search_cases w) as H.
    rewrite Hget in H.
    destruct rs as [|r rs]; [congruence|].
    cbn [map Py.truthy] in H. rewrite H.
    now rewrite <- (from_cached_to_dict (r :: rs)).
Qed.

End AdapterFacts.

Lemma search_docker_hub_shape fromisoformat server self t_get t_set term limit :
  search_docker_hub fromisoformat server self t_get t_set term limit
  = cached_search fromisoformat server self t_get t_set
      (docker_hub_key term limit) (docker_hub_url term limit)
      docker_hub_records docker_hub_result.
Proof. reflexivity. Qed.

Lemma search_quay_shape fromisoformat server self t_get t_set term limit :
  search_quay fromisoformat server self t_get t_set term limit
  = cached_search fromisoformat server self t_get t_set
      (quay_key term limit) (quay_url term) (quay_records limit) quay_result.
Proof. reflexivity. Qed.

(** Memoization for the shared shape: after a search that fetched and
    returned results, the same search is a cache hit until the entry is
    3600 seconds old. *)
Lemma cached_search_memo fromisoformat server self t1 t1' t2 t2' key url records result
      (w w1 : world) (rs : list ImageResult) :
  (forall t, Datetime.valid t -> fromisoformat (Datetime.isoformat t) = Datetime.Naive t) ->
  use_cache self = true ->
  Datetime.valid t1' ->
  cached_search fromisoformat server self t1 t1' key url records result w = (Return rs, w1) ->
  rs <> [] ->
  age t2 t1' < Datetime.timedelta_seconds 3600 ->
  (log w1 <> log w ->
   cached_search fromisoformat server self t2 t2' key url records result w1 = (Return rs, w1)) /\
  (List.length
     (log (snd (cached_search fromisoformat server self t2 t2' key url records result w1)))
   <= S (List.length (log w)))%nat.
Proof.
  intros Hrt Hu Hv Hrun Hne Hage.
  assert (Hhit : log w1 <> log w ->
                 cached_search fromisoformat server self t2 t2' key url records result w1
                 = (Return rs, w1)).
  { intros Hlog.
    destruct (cached_search_fetched _ _ _ _ _ _ _ _ _ _ _ _ Hrun Hlog)
      as [_ [[-> _]|[Hd _]]]; [congruence|].
    apply cached_search_hit; [|exact Hne].
    rewrite Hd, (get_after_set fromisoformat Hrt) by assumption.
    apply Z.ltb_lt in Hage. unfold TTL, CACHE_TTL. now rewrite Hage. }
  split; [exact Hhit|].
  pose proof (cached_search_log fromisoformat server self t1 t1' key url records result w)
    as Hfirst.
  rewrite Hrun in Hfirst. cbn [snd] in Hfirst.
  destruct Hfirst as [Hsame|Hnew].
  - pose proof (cached_search_log fromisoformat server self t2 t2' key url records
                  result w1) as [H|H];
      rewrite H, ?Hsame; cbn [List.length]; lia.
  - rewrite Hhit by (rewrite Hnew; apply cons_neq).
    cbn [snd]. rewrite Hnew. cbn [List.length]. lia.
Qed.

(** C4, amended. With caching enabled, when a search returns at least one
    result, the same search on the same adapter, read from the cache less
    than 3600 seconds after the first search's cache write, brings the
    total to at most one network call; if the first search made the call,
    the second makes none, returns the same results and leaves the cache
    directory as it was. *)
Theorem search_memoized fromisoformat server
    (search : RegistrySearcher -> Datetime.datetime -> Datetime.datetime ->
              string -> Z -> M (list ImageResult))
    self term limit t1 t1' t2 t2' (w w1 : world) (rs : list ImageResult) :
  (forall t, Datetime.valid t -> fromisoformat (Datetime.isoformat t) = Datetime.Naive t) ->
  search = search_docker_hub fromisoformat server \/
  search = search_quay fromisoformat server ->
  use_cache self = true ->
  Datetime.valid t1' ->
  search self t1 t1' term limit w = (Return rs, w1) ->
  rs <> [] ->
  age t2 t1' < Datetime.timedelta_seconds 3600 ->
  (log w1 <> log w -> search self t2 t2' term limit w1 = (Return rs, w1)) /\
  (List.length (log (snd (search self t2 t2' term limit w1)))
   <= S (List.length (log w)))%nat.
Proof.
  intros Hrt [-> | ->] Hu Hv Hrun Hne Hage.
  - rewrite search_docker_hub_shape in Hrun. rewrite search_docker_hub_shape.
    eapply cached_search_memo; eassumption.
  - rewrite search_quay_shape in Hrun. rewrite search_quay_shape.
    eapply cached_search_memo; eassumption.
Qed.

Lemma first_run_fetches :
  first_run = (Return nginx_results, snd first_run) /\
  log (snd first_run)
  = ["https://hub.docker.com/v2/search/repositories/?query=nginx&page_size=10"].
Proof. split; vm_compute; reflexivity. Qed.

Lemma search_memoized_witness :
  search_docker_hub Datetime.parse_iso two_repos enabled ten_past_noon ten_past_noon
    "nginx" 10 (snd first_run) = (Return nginx_results, snd first_run) /\
  (List.length
     (log (snd (search_docker_hub Datetime.parse_iso two_repos enabled ten_past_noon
                  ten_past_noon "nginx" 10 (snd first_run))))
   <= S (List.length (log start)))%nat.
Proof.
  destruct (search_memoized Datetime.parse_iso two_repos
              (search_docker_hub Datetime.parse_iso two_repos)
              enabled "nginx" 10 noon noon ten_past_noon ten_past_noon
              start (snd first_run) nginx_results) as [Hhit Hcount].
  - exact parse_iso_isoformat.
  - left. reflexivity.
  - reflexivity.
  - apply valid_of_validb. reflexivity.
  - apply first_run_fetches.
  - discriminate.
  - vm_compute. reflexivity.
  - split; [|exact Hcount]. apply Hhit.
    rewrite (proj2 first_run_fetches). discriminate.
Defined.

(** C4 as stated fails when the fetch fails: nothing is cached, and the
    second of two identical searches within the TTL goes to the network
    again, two calls in all. *)
Lemma failed_fetch_is_not_memoized :
  use_cache enabled = true /\
  age ten_past_noon noon < Datetime.timedelta_seconds CACHE_TTL /\
  fst offline_first = Return [] /\
  fst offline_second = Return [] /\
  log (snd offline_second)
  = ["https://quay.io/api/v1/find/repositories?query=nginx&page=1";
     "https://quay.io/api/v1/find/repositories?query=nginx&page=1"].
Proof. repeat split; vm_compute; reflexivity. Qed.

(** An empty result list is written to the cache, but the test
    [if cached:] takes the empty list for a miss, so the next identical
    search fetches again. *)
Lemma empty_results_are_fetched_again :
  _get_cached Datetime.parse_iso enabled ten_past_noon (docker_hub_key "zzz" 10)
    (disk (snd no_match_first)) = Return (JArr []) /\
  List.length (log (snd no_match_first)) = 1%nat /\
  List.length (log (snd no_match_second)) = 2%nat.
Proof. repeat split; vm_compute; reflexivity. Qed.

(** ** How many results a search returns *)

Lemma chars_length (l : list ascii) :
  List.length (Py.chars (string_of_list_ascii l)) = List.length l.
Proof.
  induction l as [|c l IH]; [reflexivity|]. cbn. now rewrite IH.
Qed.

Lemma slice_to_length {A : Type} (n : Z) (l : list A) :
  0 <= n -> Z.of_nat (List.length (PyList.slice_to n l)) <= n.
Proof.
  intros H. unfold PyList.slice_to.
  destruct (Z.leb_spec 0 n); [|lia].
  pose proof (List.firstn_le_length (Z.to_nat n) l). lia.
Qed.

Lemma quay_records_length (limit : Z) (data : json) (items : list json) :
  0 <= limit ->
  quay_records limit data = Return items ->
  Z.of_nat (List.length items) <= limit.
Proof.
  intros Hl. unfold quay_records.
  destruct (Py.getitem data "results") as [rs|e]; cbn [Py.bind]; [|discriminate].
  destruct rs; cbn [Py.slice_to Py.bind Py.iter]; try discriminate; intros [= <-].
  - rewrite length_map, chars_length. now apply slice_to_length.
  - now apply slice_to_length.
Qed.

(** C9, amended. For a limit that is not negative, [search_quay] returns
    at most [limit] results whenever it builds them from a fetched
    response: it cuts the fetched list itself. [search_docker_hub] does
    not cut: when it builds its results from a fetched response it returns
    one result for each record of the response, whatever the limit. *)
Theorem search_result_count fromisoformat server self t_get t_set term limit (w : world) :
  0 <= limit ->
  (forall rs w1,
     search_quay fromisoformat server self t_get t_set term limit w = (Return rs, w1) ->
     log w1 <> log w ->
     Z.of_nat (List.length rs) <= limit) /\
  (forall rs w1,
     search_docker_hub fromisoformat server self t_get t_set term limit w = (Return rs, w1) ->
     log w1 <> log w ->
     rs = [] \/
     exists items,
       docker_hub_records (server (log w) (docker_hub_url term limit)) = Return items /\
       List.length rs = List.length items).
Proof.
  intros Hl. split; intros rs w1 Hrun Hlog.
  - rewrite search_quay_shape in Hrun.
    destruct (cached_search_fetched _ _ _ _ _ _ _ _ _ _ _ _ Hrun Hlog)
      as [_ [[-> _]|[_ (items & Hitems & Hrs)]]]; [cbn; lia|].
    rewrite (traverse_length _ _ _ Hrs). eapply quay_records_length; eassumption.
  - rewrite search_docker_hub_shape in Hrun.
    destruct (cached_search_fetched _ _ _ _ _ _ _ _ _ _ _ _ Hrun Hlog)
      as [_ [[-> _]|[_ (items & Hitems & Hrs)]]]; [now left|].
    right. exists items. split; [exact Hitems|]. eapply traverse_length; eassumption.
Qed.

Lemma search_result_count_witness :
  Z.of_nat (List.length
              [mkImageResult (JStr "quay.io/library/nginx") (JStr "quay.io") (JStr "")
                 (JNum 0) (JNum 0) (JBool false) (JStr "latest")]) <= 1 /\
  (nginx_results = [] \/
   exists items,
     docker_hub_records (two_repos (log start) (docker_hub_url "nginx" 1)) = Return items /\
     List.length nginx_results = List.length items).
Proof.
  destruct (search_result_count Datetime.parse_iso two_repos enabled noon noon "nginx" 1
              start ltac:(lia)) as [Hquay Hdocker].
  split.
  - eapply Hquay; [vm_compute; reflexivity|]. vm_compute. discriminate.
  - eapply Hdocker; [vm_compute; reflexivity|]. vm_compute. discriminate.
Defined.

(** C9 as stated fails for Docker Hub: with limit 1 and a response of two
    records, two results are returned. *)
Lemma docker_hub_returns_more_than_limit :
  fst (search_docker_hub Datetime.parse_iso two_repos enabled noon noon "nginx" 1 start)
  = Return nginx_results /\
  1 < Z.of_nat (List.length nginx_results).
Proof. split; vm_compute; reflexivity. Qed.

(** A negative limit counts from the end of the fetched list, as slices
    do: limit -1 on two records gives one result. *)
Lemma quay_negative_limit :
  exists r,
    fst (search_quay Datetime.parse_iso two_repos enabled noon noon "nginx" (-1) start)
    = Return [r].
Proof. eexists. vm_compute. reflexivity. Qed.

(** ** Further facts about the code *)

(** X1. With caching enabled and a cache file that [json.load] reads as the
    value [j], [_get_cached] raises exactly when [j] is not an object
    ([AttributeError]), or its [cached_at] is not a string ([TypeError]),
    or is a string that [datetime.fromisoformat] rejects ([ValueError]) or
    reads with a UTC offset ([TypeError]); in every other case it
    returns. *)
Theorem get_cached_raises_iff fromisoformat self now key (d : gmap string file)
    (j : json) (e : exn) :
  use_cache self = true ->
  d !! cache_file key = Some (Document j) ->
  (_get_cached fromisoformat self now key d = Raise e <->
   entry_error fromisoformat j = Some e).
Proof.
  intros Hu Hf. unfold _get_cached. rewrite Hu, Hf. cbn [negb].
  assert (H : match read_entry fromisoformat now (Document j) with
              | Return _ => entry_error fromisoformat j = None
              | Raise e' => entry_error fromisoformat j = Some e' /\ handled e' = false
              end).
  { unfold read_entry, entry_error. cbn [json_load Py.bind].
    destruct j as [| | | | |m]; cbn [Py.get Py.bind]; try (split; reflexivity).
    unfold or_default. destruct (Py.assoc "cached_at" m) as [[| | |s| |]|];
      cbn [datetime_fromisoformat Py.bind]; try (split; reflexivity).
    - destruct (fromisoformat s); cbn [Py.bind fresh];
        try (split; reflexivity).
      destruct (_ <? _); reflexivity.
    - destruct (fromisoformat "1970-01-01"); cbn [Py.bind fresh];
        try (split; reflexivity).
      destruct (_ <? _); reflexivity. }
  destruct (read_entry fromisoformat now (Document j)) as [[v|]|e'].
  - split; [discriminate|congruence].
  - split; [discriminate|congruence].
  - destruct H as [He Hh]. rewrite Hh. split; congruence.
Qed.

Lemma get_cached_raises_iff_witness :
  _get_cached Datetime.parse_iso enabled noon "k"
    (<[cache_file "k" := Document (JStr "text")]> no_files) = Raise AttributeError <->
  entry_error Datetime.parse_iso (JStr "text") = Some AttributeError.
Proof.
  apply (get_cached_raises_iff Datetime.parse_iso enabled noon "k"
           (<[cache_file "k" := Document (JStr "text")]> no_files)
           (JStr "text") AttributeError).
  - reflexivity.
  - apply lookup_insert_eq.
Defined.

(** X3. A Docker Hub record without [short_description] is mapped without an
    error, with the empty description. *)
Theorem docker_hub_missing_description (m : list (string * json)) :
  Py.assoc "short_description" m = None ->
  exists r, docker_hub_result (JObj m) = Return r /\ description r = JStr "".
Proof.
  intros H. unfold docker_hub_result. cbn [Py.get Py.bind]. rewrite H.
  eexists. split; reflexivity.
Qed.

Lemma docker_hub_missing_description_witness :
  exists r, docker_hub_result (JObj [("repo_name", JStr "bitnami/nginx")]) = Return r
            /\ description r = JStr "".
Proof.
  apply (docker_hub_missing_description [("repo_name", JStr "bitnami/nginx")]).
  reflexivity.
Defined.

(** X4. One search sends at most one request, on either adapter. *)
Theorem search_sends_at_most_one_request fromisoformat server self t_get t_set term limit
    (w : world) :
  (List.length (log (snd (search_docker_hub fromisoformat server self t_get t_set
                            term limit w)))
   <= S (List.length (log w)))%nat /\
  (List.length (log (snd (search_quay fromisoformat server self t_get t_set
                            term limit w)))
   <= S (List.length (log w)))%nat.
Proof.
  rewrite search_docker_hub_shape, search_quay_shape.
  split; match goal with
         | |- context [cached_search ?f ?s ?x ?a ?b ?k ?u ?r ?g w] =>
             destruct (cached_search_log f s x a b k u r g w) as [H|H];
               rewrite H; cbn [List.length]; lia
         end.
Qed.

(** X5. [get_best_tag] ranks what [get_tags] returned: on a fetched list of
    tag strings it returns [best_tag] of that list. *)
Theorem get_best_tag_ranks_fetched_tags fromisoformat server self t_get t_set image
    (w w1 : world) (tags : list string) :
  get_tags fromisoformat server self t_get t_set image 50 w
  = (Return (JArr (map JStr tags)), w1) ->
  get_best_tag fromisoformat server self t_get t_set image w
  = (Return (Ranker.best_tag tags), w1).
Proof.
  intros H. unfold get_best_tag, mbind, lift. rewrite H.
  f_equal. unfold rank. destruct tags as [|t ts]; [reflexivity|].
  cbn [map Py.truthy negb].
  assert (E : forall l, strings (map JStr l) = Some l).
  { induction l as [|x l IH]; [reflexivity|]. cbn. now rewrite IH. }
  change (JStr t :: map JStr ts) with (map JStr (t :: ts)).
  now rewrite (E (t :: ts)).
Qed.

Lemma get_best_tag_ranks_fetched_tags_witness :
  get_best_tag Datetime.parse_iso four_tags enabled noon noon "nginx" start
  = (Return (Ranker.best_tag ["1.2"; "1.10"; "1.9"; "2.0"]),
     snd (get_tags Datetime.parse_iso four_tags enabled noon noon "nginx" 50 start)).
Proof.
  apply (get_best_tag_ranks_fetched_tags Datetime.parse_iso four_tags enabled noon noon
           "nginx" start).
  vm_compute. reflexivity.
Defined.

(** ** The cache directory as a store *)

Lemma length_append (a b : string) :
  String.length (a ++ b) = (String.length a + String.length b)%nat.
Proof.
  induction a as [|c a IH]; [reflexivity|].
  rewrite append_cons. cbn [String.length]. now rewrite IH.
Qed.

Lemma append_inj_l (s a b : string) : s ++ a = s ++ b -> a = b.
Proof.
  induction s as [|c s IH]; [now rewrite !append_nil_l|].
  rewrite !append_cons. intros [= H]. now apply IH.
Qed.

Lemma append_inj_r (a b t : string) : a ++ t = b ++ t -> a = b.
Proof.
  revert b. induction a as [|c a IH]; intros [|c' b] H.
  - reflexivity.
  - apply (f_equal String.length) in H.
    rewrite append_nil_l, append_cons in H. cbn [String.length] in H.
    rewrite length_append in H. lia.
  - apply (f_equal String.length) in H.
    rewrite append_nil_l, append_cons in H. cbn [String.length] in H.
    rewrite length_append in H. lia.
  - rewrite !append_cons in H. injection H as -> H. f_equal. now apply IH.
Qed.

Lemma cache_file_inj (key key' : string) : cache_file key = cache_file key' -> key = key'.
Proof. apply append_inj_r. Qed.

(** X7. A write leaves every other key as it was, for keys without a slash
    (which name different files when they differ): what a read of another
    key returns, or raises, is the same before and after. *)
Theorem set_cached_keeps_other_keys fromisoformat (self writer : RegistrySearcher)
    (now t_set : Datetime.datetime) (key key' : string) (data : json)
    (d : gmap string file) :
  flat_key key = true ->
  flat_key key' = true ->
  key' <> key ->
  _get_cached fromisoformat self now key' (_set_cached writer t_set key data d)
  = _get_cached fromisoformat self now key' d.
Proof.
  intros _ _ Hne. unfold _get_cached, _set_cached.
  rewrite lookup_insert_ne; [reflexivity|].
  intros E. apply cache_file_inj in E. congruence.
Qed.

Lemma set_cached_keeps_other_keys_witness :
  _get_cached Datetime.parse_iso enabled ten_past_noon "quay_nginx_10"
    (_set_cached enabled ten_past_noon "dockerhub_nginx_10" (JArr [])
       (_set_cached enabled noon "quay_nginx_10" (JStr "kept") no_files))
  = _get_cached Datetime.parse_iso enabled ten_past_noon "quay_nginx_10"
      (_set_cached enabled noon "quay_nginx_10" (JStr "kept") no_files).
Proof.
  apply (set_cached_keeps_other_keys Datetime.parse_iso enabled enabled ten_past_noon
           ten_past_noon "dockerhub_nginx_10" "quay_nginx_10").
  - reflexivity.
  - reflexivity.
  - discriminate.
Defined.

(** A write replaces the entry of its key: nothing of an earlier write of
    the same key is left in the cache directory. *)
Theorem set_cached_replaces_entry (s1 s2 : RegistrySearcher) (t1 t2 : Datetime.datetime)
    (key : string) (v1 v2 : json) (d : gmap string file) :
  _set_cached s2 t2 key v2 (_set_cached s1 t1 key v1 d) = _set_cached s2 t2 key v2 d.
Proof. unfold _set_cached. apply insert_insert_eq. Qed.





(** ** What a search does to the world *)

(** Every way [get_tags] can go. *)
Lemma get_tags_cases fromisoformat server self t_get t_set image limit (w : world) :
  let url := tags_url image limit in
  let key := tags_key image limit in
  match _get_cached fromisoformat self t_get key (disk w) with
  | Raise e => get_tags fromisoformat server self t_get t_set image limit w = (Raise e, w)
  | Return cached =>
      if Py.truthy cached
      then get_tags fromisoformat server self t_get t_set image limit w = (Return cached, w)
      else
        match no_results (server (log w) url) with
        | Raise e =>
            get_tags fromisoformat server self t_get t_set image limit w
            = (Raise e, mkWorld (disk w) (url :: log w))
        | Return true =>
            get_tags fromisoformat server self t_get t_set image limit w
            = (Return (JArr []), mkWorld (disk w) (url :: log w))
        | Return false =>
            match Py.bind (docker_hub_records (server (log w) url)) tag_names with
            | Raise e =>
                get_tags fromisoformat server self t_get t_set image limit w
                = (Raise e, mkWorld (disk w) (url :: log w))
            | Return tags =>
                get_tags fromisoformat server self t_get t_set image limit w
                = (Return (JArr tags),
                   mkWorld (_set_cached self t_set key (JArr tags) (disk w)) (url :: log w))
            end
        end
  end.
Proof.
  cbv zeta.
  unfold get_tags, mbind, read_disk, lift, ret, write_disk, _http_get, docker_hub_records.
  fold (tags_image image). fold (tags_key image limit). fold (tags_url image limit).
  destruct (_get_cached fromisoformat self t_get (tags_key image limit) (disk w))
    as [cached|e]; [|reflexivity].
  destruct (Py.truthy cached); [reflexivity|]. cbn [disk log].
  destruct (no_results (server (log w) (tags_url image limit))) as [[|]|e];
    try reflexivity.
  destruct (Py.bind (Py.getitem (server (log w) (tags_url image limit)) "results") Py.iter)
    as [items|e]; cbn [Py.bind]; [|reflexivity].
  destruct (tag_names items) as [tags|e]; reflexivity.
Qed.

Lemma cached_search_world fromisoformat server self t_get t_set key url records result
      (w : world) :
  let run := cached_search fromisoformat server self t_get t_set key url records result w in
  (snd run = w \/ log (snd run) = url :: log w) /\
  (disk (snd run) = disk w \/
   exists rs, fst run = Return rs /\ log (snd run) = url :: log w /\
              disk (snd run) = _set_cached self t_set key (JArr (map to_dict rs)) (disk w)).
Proof.
  cbv zeta.
  pose proof (cached_search_cases fromisoformat server self t_get t_set key url records
                result w) as H.
  destruct (_get_cached fromisoformat self t_get key (disk w)) as [cached|e];
    [|rewrite H; split; now left].
  destruct (Py.truthy cached); [rewrite H; split; now left|].
  destruct (no_results (server (log w) url)) as [[|]|e];
    try (rewrite H; split; [now right|now left]).
  destruct (Py.bind (records (server (log w) url)) (Py.traverse result)) as [rs|e];
    rewrite H; (split; [now right|]); [right; now exists rs|now left].
Qed.

Lemma get_tags_world fromisoformat server self t_get t_set image limit (w : world) :
  let run := get_tags fromisoformat server self t_get t_set image limit w in
  (snd run = w \/ log (snd run) = tags_url image limit :: log w) /\
  (disk (snd run) = disk w \/
   exists tags, fst run = Return (JArr tags) /\
                log (snd run) = tags_url image limit :: log w /\
                disk (snd run)
                = _set_cached self t_set (tags_key image limit) (JArr tags) (disk w)).
Proof.
  cbv zeta.
  pose proof (get_tags_cases fromisoformat server self t_get t_set image limit w) as H.
  cbv zeta in H.
  destruct (_get_cached fromisoformat self t_get (tags_key image limit) (disk w))
    as [cached|e]; [|rewrite H; split; now left].
  destruct (Py.truthy cached); [rewrite H; split; now left|].
  destruct (no_results (server (log w) (tags_url image limit))) as [[|]|e];
    try (rewrite H; split; [now right|now left]).
  destruct (Py.bind (docker_hub_records (server (log w) (tags_url image limit))) tag_names)
    as [tags|e]; rewrite H; (split; [now right|]); [right; now exists tags|now left].
Qed.

(** X9. A search or a tag lookup changes nothing in the cache directory but
    the file of its own cache key: afterwards the directory is as before,
    or as before with that one file replaced. *)
Theorem searches_write_only_their_entry fromisoformat server self t_get t_set
    (term image : string) (limit : Z) (w : world) :
  (let after := disk (snd (search_docker_hub fromisoformat server self t_get t_set
                             term limit w)) in
   after = disk w \/
   exists f, after = <[cache_file (docker_hub_key term limit) := f]> (disk w)) /\
  (let after := disk (snd (search_quay fromisoformat server self t_get t_set
                             term limit w)) in
   after = disk w \/
   exists f, after = <[cache_file (quay_key term limit) := f]> (disk w)) /\
  (let after := disk (snd (get_tags fromisoformat server self t_get t_set
                             image limit w)) in
   after = disk w \/
   exists f, after = <[cache_file (tags_key image limit) := f]> (disk w)).
Proof.
  cbv zeta. rewrite search_docker_hub_shape, search_quay_shape.
  repeat split.
  - destruct (cached_search_world fromisoformat server self t_get t_set
                (docker_hub_key term limit) (docker_hub_url term limit)
                docker_hub_records docker_hub_result w) as [_ [H|(rs & _ & _ & H)]];
      [now left|right; rewrite H; unfold _set_cached; eauto].
  - destruct (cached_search_world fromisoformat server self t_get t_set
                (quay_key term limit) (quay_url term)
                (quay_records limit) quay_result w) as [_ [H|(rs & _ & _ & H)]];
      [now left|right; rewrite H; unfold _set_cached; eauto].
  - destruct (get_tags_world fromisoformat server self t_get t_set image limit w)
      as [_ [H|(tags & _ & _ & H)]];
      [now left|right; rewrite H; unfold _set_cached; eauto].
Qed.



(** A search that went to the network had read a miss. *)
Lemma cached_search_fetched_miss fromisoformat server self t_get t_set key url records
      result (w : world) :
  log (snd (cached_search fromisoformat server self t_get t_set key url records result w))
  <> log w ->
  exists c, _get_cached fromisoformat self t_get key (disk w) = Return c /\
            Py.truthy c = false.
Proof.
  intros Hlog.
  pose proof (cached_search_cases fromisoformat server self t_get t_set key url records
                result w) as H.
  destruct (_get_cached fromisoformat self t_get key (disk w)) as [c|e];
    [|rewrite H in Hlog; now contradiction Hlog].
  destruct (Py.truthy c) eqn:Ht; [rewrite H in Hlog; now contradiction Hlog|].
  now exists c.
Qed.

(** A search that reads a miss sends its request. *)
Lemma cached_search_miss_log fromisoformat server self t_get t_set key url records result
      (w : world) (c : json) :
  _get_cached fromisoformat self t_get key (disk w) = Return c ->
  Py.truthy c = false ->
  log (snd (cached_search fromisoformat server self t_get t_set key url records result w))
  = url :: log w.
Proof.
  intros Hget Ht.
  pose proof (cached_search_cases fromisoformat server self t_get t_set key url records
                result w) as H.
  rewrite Hget, Ht in H.
  destruct (no_results (server (log w) url)) as [[|]|e]; try (now rewrite H).
  destruct (Py.bind (records (server (log w) url)) (Py.traverse result));
    now rewrite H.
Qed.




(** X12. A search whose cache read returns a value that counts as true is
    answered from that value alone: no request is sent and the cache
    directory is not written, also when rebuilding the results raises. *)
Theorem cache_hit_leaves_world fromisoformat server
    (search : RegistrySearcher -> Datetime.datetime -> Datetime.datetime ->
              string -> Z -> M (list ImageResult))
    (key : string -> Z -> string)
    self t_get t_set term limit (w : world) (cached : json) :
  (search = search_docker_hub fromisoformat server /\ key = docker_hub_key) \/
  (search = search_quay fromisoformat server /\ key = quay_key) ->
  _get_cached fromisoformat self t_get (key term limit) (disk w) = Return cached ->
  Py.truthy cached = true ->
  search self t_get t_set term limit w = (from_cached cached, w).
Proof.
  intros [[-> ->]|[-> ->]] Hget Ht.
  - rewrite search_docker_hub_shape.
    pose proof (cached_search_cases fromisoformat server self t_get t_set
                  (docker_hub_key term limit) (docker_hub_url term limit)
                  docker_hub_records docker_hub_result w) as H.
    now rewrite Hget, Ht in H.
  - rewrite search_quay_shape.
    pose proof (cached_search_cases fromisoformat server self t_get t_set
                  (quay_key term limit) (quay_url term)
                  (quay_records limit) quay_result w) as H.
    now rewrite Hget, Ht in H.
Qed.

(** A cache file that holds a string where the list of results should
    be: the search raises [TypeError] and sends nothing. *)
Lemma cache_hit_leaves_world_witness :
  search_quay Datetime.parse_iso two_repos enabled ten_past_noon ten_past_noon "nginx" 10
    (mkWorld (_set_cached enabled noon (quay_key "nginx" 10) (JStr "oops") no_files) [])
  = (Raise TypeError,
     mkWorld (_set_cached enabled noon (quay_key "nginx" 10) (JStr "oops") no_files) []).
Proof.
  apply (cache_hit_leaves_world Datetime.parse_iso two_repos
           (search_quay Datetime.parse_iso two_repos) quay_key enabled ten_past_noon
           ten_past_noon "nginx" 10
           (mkWorld (_set_cached enabled noon (quay_key "nginx" 10) (JStr "oops") no_files) [])
           (JStr "oops")).
  - right. split; reflexivity.
  - vm_compute. reflexivity.
  - reflexivity.
Defined.

(** What makes reading an entry raise, and that the handler lets it pass. *)
Lemma read_entry_error fromisoformat now (j : json) (e : exn) :
  entry_error fromisoformat j = Some e ->
  read_entry fromisoformat now (Document j) = Raise e /\ handled e = false.
Proof.
  unfold read_entry, entry_error. cbn [json_load Py.bind].
  destruct j as [| | | | |m]; cbn [Py.get Py.bind];
    try (intros [= <-]; split; reflexivity).
  unfold or_default. destruct (Py.assoc "cached_at" m) as [[| | |s| |]|];
    cbn [datetime_fromisoformat Py.bind]; try (intros [= <-]; split; reflexivity).
  - destruct (fromisoformat s); cbn [Py.bind fresh];
      try discriminate; intros [= <-]; split; reflexivity.
  - destruct (fromisoformat "1970-01-01"); cbn [Py.bind fresh];
      try discriminate; intros [= <-]; split; reflexivity.
Qed.

(** X13. A corrupt cache file stays in the way: the search for its key raises
    before it sends a request or rewrites the file, so the same search
    raises again until the file is removed; [search_all] raises with the
    Docker Hub search and never asks Quay. *)
Theorem corrupt_entry_blocks_search fromisoformat server self t1 t2 t3 t4 term limit
    (w : world) (j : json) (e : exn) :
  use_cache self = true ->
  entry_error fromisoformat j = Some e ->
  (disk w !! cache_file (docker_hub_key term limit) = Some (Document j) ->
   search_docker_hub fromisoformat server self t1 t2 term limit w = (Raise e, w) /\
   search_all fromisoformat server self t1 t2 t3 t4 term limit w = (Raise e, w)) /\
  (disk w !! cache_file (quay_key term limit) = Some (Document j) ->
   search_quay fromisoformat server self t1 t2 term limit w = (Raise e, w)).
Proof.
  intros Hu He.
  assert (Hget : forall now key, disk w !! cache_file key = Some (Document j) ->
                 _get_cached fromisoformat self now key (disk w) = Raise e).
  { intros now key Hf. unfold _get_cached. rewrite Hu, Hf. cbn [negb].
    destruct (read_entry_error fromisoformat now j e He) as [-> ->]. reflexivity. }
  split; intros Hf.
  - assert (Hd : search_docker_hub fromisoformat server self t1 t2 term limit w
                 = (Raise e, w)).
    { rewrite search_docker_hub_shape.
      pose proof (cached_search_cases fromisoformat server self t1 t2
                    (docker_hub_key term limit) (docker_hub_url term limit)
                    docker_hub_records docker_hub_result w) as H.
      now rewrite (Hget _ _ Hf) in H. }
    split; [exact Hd|]. unfold search_all, mbind. now rewrite Hd.
  - rewrite search_quay_shape.
    pose proof (cached_search_cases fromisoformat server self t1 t2
                  (quay_key term limit) (quay_url term)
                  (quay_records limit) quay_result w) as H.
    now rewrite (Hget _ _ Hf) in H.
Qed.

Lemma corrupt_entry_blocks_search_witness :
  search_all Datetime.parse_iso two_repos enabled noon noon noon noon "nginx" 10
    (mkWorld (<[cache_file (docker_hub_key "nginx" 10) := Document (JArr [])]> no_files) [])
  = (Raise AttributeError,
     mkWorld (<[cache_file (docker_hub_key "nginx" 10) := Document (JArr [])]> no_files) []).
Proof.
  apply (corrupt_entry_blocks_search Datetime.parse_iso two_repos enabled noon noon noon noon
           "nginx" 10
           (mkWorld (<[cache_file (docker_hub_key "nginx" 10) := Document (JArr [])]>
                       no_files) [])
           (JArr []) AttributeError eq_refl eq_refl).
  apply lookup_insert_eq.
Defined.

(** A read that misses keeps missing as the clock moves on, as long as
    the cache directory is not written. *)
Lemma get_cached_stays_miss fromisoformat self (now later : Datetime.datetime)
      (key : string) (d : gmap string file) (c : json) :
  Datetime.to_microseconds now <= Datetime.to_microseconds later ->
  _get_cached fromisoformat self now key d = Return c ->
  Py.truthy c = false ->
  exists c', _get_cached fromisoformat self later key d = Return c' /\
             Py.truthy c' = false.
Proof.
  intros Hle. unfold _get_cached.
  destruct (negb (use_cache self)); [intros [= <-] _; now exists JNull|].
  destruct (d !! cache_file key) as [[|e0|j]|]; [| | |intros [= <-] _; now exists JNull].
  { cbn. intros [= <-] _. now exists JNull. }
  { cbn. destruct (handled e0); [intros [= <-] _; now exists JNull|discriminate]. }
  unfold read_entry. cbn [json_load Py.bind].
  destruct (Py.get j "cached_at" (JStr "1970-01-01")) as [stamp|e]; cbn [Py.bind];
    [|destruct (handled e); [intros [= <-] _; now exists JNull|discriminate]].
  destruct (datetime_fromisoformat fromisoformat stamp) as [p|e]; cbn [Py.bind];
    [|destruct (handled e); [intros [= <-] _; now exists JNull|discriminate]].
  destruct p as [|t|]; cbn [fresh Py.bind]; try discriminate.
  destruct (Datetime.to_microseconds now - Datetime.to_microseconds t
            <? Datetime.timedelta_seconds CACHE_TTL) eqn:E1;
    destruct (Datetime.to_microseconds later - Datetime.to_microseconds t
              <? Datetime.timedelta_seconds CACHE_TTL) eqn:E2.
  - intros H Ht. exists c. split; [exact H|exact Ht].
  - intros _ _. now exists JNull.
  - apply Z.ltb_ge in E1. apply Z.ltb_lt in E2. lia.
  - intros _ _. now exists JNull.
Qed.

Lemma cached_search_empty_refetch fromisoformat server self t1 t1' t2 t2' key url records
      result (w w1 : world) :
  (forall t, Datetime.valid t -> fromisoformat (Datetime.isoformat t) = Datetime.Naive t) ->
  use_cache self = true ->
  Datetime.valid t1' ->
  Datetime.to_microseconds t1 <= Datetime.to_microseconds t2 ->
  cached_search fromisoformat server self t1 t1' key url records result w = (Return [], w1) ->
  log w1 <> log w ->
  log (snd (cached_search fromisoformat server self t2 t2' key url records result w1))
  = url :: log w1.
Proof.
  intros Hrt Hu Hv Hle Hrun Hlog.
  destruct (cached_search_fetched_miss fromisoformat server self t1 t1' key url records
              result w) as (c & Hc & Hct); [now rewrite Hrun|].
  destruct (cached_search_fetched _ _ _ _ _ _ _ _ _ _ _ _ Hrun Hlog)
    as [_ [[_ Hd]|[Hd _]]].
  - destruct (get_cached_stays_miss fromisoformat self t1 t2 key (disk w) c Hle Hc Hct)
      as (c' & Hc' & Hct').
    eapply cached_search_miss_log; [rewrite Hd; exact Hc'|exact Hct'].
  - eapply cached_search_miss_log.
    + rewrite Hd. apply (get_after_set fromisoformat Hrt); assumption.
    + cbn [map]. destruct (_ <? _); reflexivity.
Qed.

(** X6. A search that fetched and found nothing is not memoized: the next
    identical search sends a request again, however soon it comes. The
    empty list may be in the cache, but a cached empty list counts as a
    miss. *)
Theorem empty_results_are_never_served fromisoformat server
    (search : RegistrySearcher -> Datetime.datetime -> Datetime.datetime ->
              string -> Z -> M (list ImageResult))
    (url : string -> Z -> string)
    self term limit t1 t1' t2 t2' (w w1 : world) :
  (forall t, Datetime.valid t -> fromisoformat (Datetime.isoformat t) = Datetime.Naive t) ->
  (search = search_docker_hub fromisoformat server /\ url = docker_hub_url) \/
  (search = search_quay fromisoformat server /\ url = fun term _ => quay_url term) ->
  use_cache self = true ->
  Datetime.valid t1' ->
  Datetime.to_microseconds t1 <= Datetime.to_microseconds t2 ->
  search self t1 t1' term limit w = (Return [], w1) ->
  log w1 <> log w ->
  log (snd (search self t2 t2' term limit w1)) = url term limit :: log w1.
Proof.
  intros Hrt [[-> ->]|[-> ->]] Hu Hv Hle Hrun Hlog.
  - rewrite search_docker_hub_shape in Hrun. rewrite search_docker_hub_shape.
    eapply cached_search_empty_refetch; eassumption.
  - rewrite search_quay_shape in Hrun. rewrite search_quay_shape.
    eapply cached_search_empty_refetch; eassumption.
Qed.

Lemma empty_results_are_never_served_witness :
  log (snd no_match_second)
  = docker_hub_url "zzz" 10 :: log (snd no_match_first).
Proof.
  apply (empty_results_are_never_served Datetime.parse_iso no_match
           (search_docker_hub Datetime.parse_iso no_match) docker_hub_url
           enabled "zzz" 10 noon noon ten_past_noon ten_past_noon start (snd no_match_first)).
  - exact parse_iso_isoformat.
  - left. split; reflexivity.
  - reflexivity.
  - apply valid_of_validb. reflexivity.
  - vm_compute. discriminate.
  - vm_compute. reflexivity.
  - vm_compute. discriminate.
Defined.

(** ** The results an adapter builds *)

Lemma string_of_list_length (l : list ascii) :
  String.length (string_of_list_ascii l) = List.length l.
Proof.
  induction l as [|c l IH]; [reflexivity|]. cbn. now rewrite IH.
Qed.

Lemma or_empty_100_bound (v d : json) : Py.or_empty_100 v = Return d -> at_most_100 d.
Proof.
  unfold Py.or_empty_100.
  assert (H : forall x, Py.slice_to 100 x = Return d -> at_most_100 d).
  { intros x. destruct x; cbn [Py.slice_to]; try discriminate; intros [= <-];
      cbn [at_most_100]; unfold PyList.slice_to; cbn [Z.leb Z.compare Z.to_nat].
    - rewrite string_of_list_length. apply List.firstn_le_length.
    - apply List.firstn_le_length. }
  destruct (Py.truthy v); apply H.
Qed.

Lemma traverse_Forall {A B : Type} (f : A -> outcome B) (P : B -> Prop)
      (l : list A) (rs : list B) :
  (forall x y, f x = Return y -> P y) ->
  Py.traverse f l = Return rs -> Forall P rs.
Proof.
  intros Hf. revert rs. induction l as [|x l IH]; intros rs; cbn [Py.traverse].
  - intros [= <-]. constructor.
  - destruct (f x) as [y|e] eqn:Hx; cbn [Py.bind]; [|discriminate].
    destruct (Py.traverse f l) as [ys|e]; cbn [Py.bind]; [|discriminate].
    intros [= <-]. constructor; [eapply Hf; eassumption|now apply IH].
Qed.

(** X14. Every result [search_docker_hub] builds from a fetched response
    carries the registry docker.io and the tag latest, and a description
    cut to at most 100 characters (or items). *)
Theorem docker_hub_results_shape fromisoformat server self t_get t_set term limit
    (w w1 : world) (rs : list ImageResult) :
  search_docker_hub fromisoformat server self t_get t_set term limit w = (Return rs, w1) ->
  log w1 <> log w ->
  Forall (fun r => registry r = JStr "docker.io" /\ latest_tag r = JStr "latest" /\
                   at_most_100 (description r)) rs.
Proof.
  intros Hrun Hlog. rewrite search_docker_hub_shape in Hrun.
  destruct (cached_search_fetched _ _ _ _ _ _ _ _ _ _ _ _ Hrun Hlog)
    as [_ [[-> _]|[_ (items & _ & Hrs)]]]; [constructor|].
  eapply traverse_Forall; [|exact Hrs].
  intros item r. unfold docker_hub_result.
  destruct item as [| | | | |m]; cbn [Py.get Py.bind]; try discriminate.
  destruct (Py.or_empty_100 _) as [d|e] eqn:Hd; cbn [Py.bind]; [|discriminate].
  intros [= <-]. cbn. repeat split. eapply or_empty_100_bound; exact Hd.
Qed.

Lemma docker_hub_results_shape_witness :
  Forall (fun r => registry r = JStr "docker.io" /\ latest_tag r = JStr "latest" /\
                   at_most_100 (description r)) nginx_results.
Proof.
  apply (docker_hub_results_shape Datetime.parse_iso two_repos enabled noon noon "nginx" 10
           start (snd first_run) nginx_results).
  - apply first_run_fetches.
  - rewrite (proj2 first_run_fetches). discriminate.
Defined.

(** X15. Every result [search_quay] builds from a fetched response has a name
    under quay.io/, the registry quay.io, zero stars and pulls, is not
    official, carries the tag latest, and has a description cut to at most
    100 characters (or items). *)
Theorem quay_results_shape fromisoformat server self t_get t_set term limit
    (w w1 : world) (rs : list ImageResult) :
  search_quay fromisoformat server self t_get t_set term limit w = (Return rs, w1) ->
  log w1 <> log w ->
  Forall (fun r => (exists rest, name r = JStr ("quay.io/" ++ rest)) /\
                   registry r = JStr "quay.io" /\
                   stars r = JNum 0 /\ pulls r = JNum 0 /\ official r = JBool false /\
                   latest_tag r = JStr "latest" /\
                   at_most_100 (description r)) rs.
Proof.
  intros Hrun Hlog. rewrite search_quay_shape in Hrun.
  destruct (cached_search_fetched _ _ _ _ _ _ _ _ _ _ _ _ Hrun Hlog)
    as [_ [[-> _]|[_ (items & _ & Hrs)]]]; [constructor|].
  eapply traverse_Forall; [|exact Hrs].
  intros item r. unfold quay_result.
  destruct item as [| | | | |m]; cbn [Py.get Py.bind]; try discriminate.
  destruct (Py.get _ "name" (JStr "")) as [ns|e]; cbn [Py.bind]; [|discriminate].
  destruct (Py.or_empty_100 _) as [d|e] eqn:Hd; cbn [Py.bind]; [|discriminate].
  intros [= <-]. cbn. repeat split; [eauto|]. eapply or_empty_100_bound; exact Hd.
Qed.

Lemma quay_results_shape_witness :
  Forall (fun r => (exists rest, name r = JStr ("quay.io/" ++ rest)) /\
                   registry r = JStr "quay.io" /\
                   stars r = JNum 0 /\ pulls r = JNum 0 /\ official r = JBool false /\
                   latest_tag r = JStr "latest" /\
                   at_most_100 (description r))
    [mkImageResult (JStr "quay.io/library/nginx") (JStr "quay.io") (JStr "")
       (JNum 0) (JNum 0) (JBool false) (JStr "latest")].
Proof.
  eapply (quay_results_shape Datetime.parse_iso two_repos enabled noon noon "nginx" 1 start).
  - vm_compute. reflexivity.
  - vm_compute. discriminate.
Defined.

(** ** Tag lookups *)

Lemma contains_cons_later (needle : string) (c : ascii) (s : string) :
  PyStr.contains needle s = true -> PyStr.contains needle (String c s) = true.
Proof.
  intros H. cbn [PyStr.contains]. rewrite H. apply orb_true_r.
Qed.

Lemma contains_slash_here (s : string) : PyStr.contains "/" (String "/" s) = true.
Proof.
  cbn [PyStr.contains String.prefix].
  destruct (ascii_dec "/" "/") as [_|H]; [|congruence].
  destruct s; reflexivity.
Qed.

Lemma contains_slash_app (a b : string) : PyStr.contains "/" (a ++ "/" ++ b) = true.
Proof.
  induction a as [|c a IH]; push_append.
  - apply contains_slash_here.
  - now apply contains_cons_later.
Qed.

Lemma tags_image_with_slash (a b : string) : tags_image (a ++ "/" ++ b) = a ++ "/" ++ b.
Proof. unfold tags_image. now rewrite contains_slash_app. Qed.

Lemma tags_image_idempotent (image : string) : tags_image (tags_image image) = tags_image image.
Proof.
  destruct (PyStr.contains "/" image) eqn:E.
  - replace (tags_image image) with image by (unfold tags_image; now rewrite E).
    unfold tags_image. now rewrite E.
  - replace (tags_image image) with ("library" ++ "/" ++ image)
      by (unfold tags_image; now rewrite E).
    apply tags_image_with_slash.
Qed.

Lemma get_tags_by_image fromisoformat server self t_get t_set image image' limit :
  tags_image image = tags_image image' ->
  get_tags fromisoformat server self t_get t_set image limit
  = get_tags fromisoformat server self t_get t_set image' limit.
Proof.
  intros H. unfold get_tags. fold (tags_image image). fold (tags_image image').
  now rewrite H.
Qed.

(** X16. An image name without a namespace is looked up under library/: the
    lookup of [image] is the lookup of [library/image], same cache entry,
    same request. *)
Theorem get_tags_defaults_to_library fromisoformat server self t_get t_set
    (image : string) (limit : Z) (w : world) :
  PyStr.contains "/" image = false ->
  get_tags fromisoformat server self t_get t_set image limit w
  = get_tags fromisoformat server self t_get t_set ("library/" ++ image) limit w.
Proof.
  intros H. rewrite (get_tags_by_image _ _ _ _ _ image ("library/" ++ image)); [reflexivity|].
  unfold tags_image at 1. rewrite H. symmetry.
  apply (tags_image_with_slash "library" image).
Qed.

Lemma get_tags_defaults_to_library_witness :
  get_tags Datetime.parse_iso four_tags enabled noon noon "nginx" 50 start
  = get_tags Datetime.parse_iso four_tags enabled noon noon "library/nginx" 50 start.
Proof.
  apply (get_tags_defaults_to_library Datetime.parse_iso four_tags enabled noon noon
           "nginx" 50 start).
  reflexivity.
Defined.

(** X17. A tag lookup that fetched a list of tags, not empty, answers every
    later lookup with the same cache key from the cache until the entry is
    3600 seconds old: the same tags, no request, no write. The key may be
    that of another image. *)
Theorem get_tags_served_from_cache fromisoformat server self t1 t1' t2 t2'
    (image image' : string) (limit : Z) (w w1 : world) (tags : list json) :
  (forall t, Datetime.valid t -> fromisoformat (Datetime.isoformat t) = Datetime.Naive t) ->
  use_cache self = true ->
  Datetime.valid t1' ->
  get_tags fromisoformat server self t1 t1' image limit w = (Return (JArr tags), w1) ->
  log w1 <> log w ->
  tags <> [] ->
  age t2 t1' < Datetime.timedelta_seconds 3600 ->
  tags_key image' limit = tags_key image limit ->
  get_tags fromisoformat server self t2 t2' image' limit w1 = (Return (JArr tags), w1).
Proof.
  intros Hrt Hu Hv Hrun Hlog Hne Hage Hkey.
  assert (Hd : disk w1 = _set_cached self t1' (tags_key image limit) (JArr tags) (disk w)).
  { pose proof (get_tags_cases fromisoformat server self t1 t1' image limit w) as H.
    cbv zeta in H.
    destruct (_get_cached fromisoformat self t1 (tags_key image limit) (disk w))
      as [cached|e]; [|congruence].
    destruct (Py.truthy cached).
    { rewrite H in Hrun. injection Hrun as _ <-. congruence. }
    destruct (no_results (server (log w) (tags_url image limit))) as [[|]|e];
      [| |congruence].
    { rewrite H in Hrun. injection Hrun as <- _. congruence. }
    destruct (Py.bind (docker_hub_records (server (log w) (tags_url image limit)))
                tag_names) as [ts|e]; [|congruence].
    rewrite H in Hrun. injection Hrun as <- <-. reflexivity. }
  pose proof (get_tags_cases fromisoformat server self t2 t2' image' limit w1) as H.
  cbv zeta in H. rewrite Hkey, Hd in H.
  rewrite (get_after_set fromisoformat Hrt) in H by assumption.
  apply Z.ltb_lt in Hage. unfold TTL, CACHE_TTL in H. rewrite Hage in H.
  destruct tags as [|t ts]; [congruence|]. cbn [Py.truthy] in H.
  exact H.
Qed.

Lemma get_tags_served_from_cache_witness :
  get_tags Datetime.parse_iso four_tags enabled ten_past_noon ten_past_noon
    "bitnami/nginx_exporter" 50
    (snd (get_tags Datetime.parse_iso four_tags enabled noon noon
            "bitnami/nginx/exporter" 50 start))
  = (Return (JArr [JStr "1.2"; JStr "1.10"; JStr "1.9"; JStr "2.0"]),
     snd (get_tags Datetime.parse_iso four_tags enabled noon noon
            "bitnami/nginx/exporter" 50 start)).
Proof.
  apply (get_tags_served_from_cache Datetime.parse_iso four_tags enabled noon noon
           ten_past_noon ten_past_noon "bitnami/nginx/exporter" "bitnami/nginx_exporter"
           50 start).
  - exact parse_iso_isoformat.
  - reflexivity.
  - apply valid_of_validb. reflexivity.
  - vm_compute. reflexivity.
  - vm_compute. discriminate.
  - discriminate.
  - vm_compute. reflexivity.
  - vm_compute. reflexivity.
Defined.

Lemma replace_char_app (a b : ascii) (s t : string) :
  Py.replace_char a b (s ++ t) = Py.replace_char a b s ++ Py.replace_char a b t.
Proof.
  induction s as [|c s IH]; [reflexivity|].
  rewrite append_cons. cbn [Py.replace_char]. rewrite append_cons. now rewrite IH.
Qed.

(** X18. The cache key of a tag lookup does not tell a slash from an
    underscore: an image [ns/a/b] and an image [ns/a_b] have the same
    key, though they are looked up at different URLs. *)
Theorem tag_keys_confuse_slash_and_underscore (ns a b : string) (limit : Z) :
  tags_key (ns ++ "/" ++ a ++ "/" ++ b) limit = tags_key (ns ++ "/" ++ a ++ "_" ++ b) limit /\
  tags_url (ns ++ "/" ++ a ++ "/" ++ b) limit <> tags_url (ns ++ "/" ++ a ++ "_" ++ b) limit.
Proof.
  unfold tags_key, tags_url. rewrite !tags_image_with_slash. split.
  - rewrite !replace_char_app. reflexivity.
  - intros E. apply append_inj_l in E. apply append_inj_r in E.
    apply append_inj_l in E. apply append_inj_l in E. apply append_inj_l in E.
    revert E. push_append. discriminate.
Qed.




(** X20. When the cache has nothing for the image, the URL of its tags is one
    [urlopen] sends, and [_http_get] returns no result list ([None]
    after a [URLError] or a body that is not JSON, or a response without
    results), [get_best_tag] returns latest; one request was sent and the
    cache directory is as before. *)
Theorem get_best_tag_without_tags fromisoformat server self t_get t_set image
    (w : world) (c : json) :
  _get_cached fromisoformat self t_get (tags_key image 50) (disk w) = Return c ->
  Py.truthy c = false ->
  sendable_url (tags_url image 50) = true ->
  no_results (server (log w) (tags_url image 50)) = Return true ->
  get_best_tag fromisoformat server self t_get t_set image w
  = (Return "latest", mkWorld (disk w) (tags_url image 50 :: log w)).
Proof.
  intros Hget Ht _ Hnone.
  pose proof (get_tags_cases fromisoformat server self t_get t_set image 50 w) as H.
  cbv zeta in H. rewrite Hget, Ht, Hnone in H.
  unfold get_best_tag, mbind, lift. rewrite H. reflexivity.
Qed.

Lemma get_best_tag_without_tags_witness :
  get_best_tag Datetime.parse_iso offline enabled noon noon "nginx" start
  = (Return "latest", mkWorld (disk start) (tags_url "nginx" 50 :: log start)).
Proof.
  apply (get_best_tag_without_tags Datetime.parse_iso offline enabled noon noon "nginx"
           start JNull); reflexivity.
Defined.

(** ** Cache keys *)

Lemma keys_of_different_operations (term term' image : string) (limit limit' limit'' : Z) :
  docker_hub_key term limit <> quay_key term' limit' /\
  docker_hub_key term limit <> tags_key image limit'' /\
  quay_key term' limit' <> tags_key image limit''.
Proof.
  unfold docker_hub_key, quay_key, tags_key. push_append. repeat split; discriminate.
Qed.

Lemma get_cached_after_other_write fromisoformat self now key (d d' : gmap string file)
      (key' : string) :
  key <> key' ->
  (d' = d \/ exists f, d' = <[cache_file key' := f]> d) ->
  _get_cached fromisoformat self now key d' = _get_cached fromisoformat self now key d.
Proof.
  intros Hne [->|(f & ->)]; [reflexivity|].
  unfold _get_cached. rewrite lookup_insert_ne; [reflexivity|].
  intros E. apply cache_file_inj in E. congruence.
Qed.

Lemma cached_search_disk_change fromisoformat server self t_get t_set key url records result
      (w : world) :
  let after := disk (snd (cached_search fromisoformat server self t_get t_set key url
                            records result w)) in
  after = disk w \/ exists f, after = <[cache_file key := f]> (disk w).
Proof.
  cbv zeta.
  destruct (cached_search_world fromisoformat server self t_get t_set key url records
              result w) as [_ [H|(rs & _ & _ & H)]];
    [now left|right; rewrite H; unfold _set_cached; eauto].
Qed.

Lemma get_tags_disk_change fromisoformat server self t_get t_set image limit (w : world) :
  let after := disk (snd (get_tags fromisoformat server self t_get t_set image limit w)) in
  after = disk w \/ exists f, after = <[cache_file (tags_key image limit) := f]> (disk w).
Proof.
  cbv zeta.
  destruct (get_tags_world fromisoformat server self t_get t_set image limit w)
    as [_ [H|(tags & _ & _ & H)]];
    [now left|right; rewrite H; unfold _set_cached; eauto].
Qed.

(** X21. The three operations keep apart in the cache: their keys start with
    different prefixes, so whatever one of them does, a cache read for
    either of the other two returns, or raises, what it did before. *)
Theorem operations_do_not_share_entries fromisoformat server self reader now t_get t_set
    (term term' image : string) (limit limit' limit'' : Z) (w : world) :
  let read key d := _get_cached fromisoformat reader now key d in
  let docker := search_docker_hub fromisoformat server self t_get t_set term limit w in
  let quay := search_quay fromisoformat server self t_get t_set term' limit' w in
  let tags := get_tags fromisoformat server self t_get t_set image limit'' w in
  (read (quay_key term' limit') (disk (snd docker)) = read (quay_key term' limit') (disk w) /\
   read (tags_key image limit'') (disk (snd docker)) = read (tags_key image limit'') (disk w)) /\
  (read (docker_hub_key term limit) (disk (snd quay))
   = read (docker_hub_key term limit) (disk w) /\
   read (tags_key image limit'') (disk (snd quay)) = read (tags_key image limit'') (disk w)) /\
  (read (docker_hub_key term limit) (disk (snd tags))
   = read (docker_hub_key term limit) (disk w) /\
   read (quay_key term' limit') (disk (snd tags)) = read (quay_key term' limit') (disk w)).
Proof.
  cbv zeta.
  destruct (keys_of_different_operations term term' image limit limit' limit'')
    as (Hdq & Hdt & Hqt).
  rewrite search_docker_hub_shape, search_quay_shape.
  repeat split; eapply get_cached_after_other_write;
    try apply cached_search_disk_change; try apply get_tags_disk_change; congruence.
Qed.

Lemma no_underscore_in_uint (d : Decimal.uint) :
  Py.has_char "_" (NilEmpty.string_of_uint d) = false.
Proof. induction d; cbn; try exact IHd; reflexivity. Qed.

Lemma no_underscore_in_int (n : Z) : Py.has_char "_" (PyStr.of_int n) = false.
Proof.
  unfold PyStr.of_int.
  assert (H : forall d, Py.has_char "_" (NilZero.string_of_uint d) = false).
  { intros d. destruct d; try apply no_underscore_in_uint. reflexivity. }
  destruct (Z.to_int n) as [d|d]; cbn [NilZero.string_of_int]; [apply H|].
  unfold Py.has_char. cbn [list_ascii_of_string existsb]. apply H.
Qed.

Lemma has_char_app (c : ascii) (a b : string) :
  Py.has_char c (a ++ b) = (Py.has_char c a || Py.has_char c b)%bool.
Proof.
  unfold Py.has_char. induction a as [|x a IH]; [reflexivity|].
  rewrite append_cons. cbn [list_ascii_of_string existsb]. rewrite IH.
  now rewrite orb_assoc.
Qed.

Lemma of_int_inj (n m : Z) : PyStr.of_int n = PyStr.of_int m -> n = m.
Proof.
  unfold PyStr.of_int. intros E. apply DecimalZ.to_int_inj.
  assert (Hn : forall k, Z.to_int k <> Decimal.Pos Decimal.Nil /\
                         Z.to_int k <> Decimal.Neg Decimal.Nil).
  { intros [|p|p]; cbn; split; try discriminate;
      intros [= H]; now apply DecimalPos.Unsigned.to_uint_nonnil in H. }
  destruct (Hn n) as [Hn1 Hn2]. destruct (Hn m) as [Hm1 Hm2].
  pose proof (NilZero.isi _ Hn1 Hn2) as E1. pose proof (NilZero.isi _ Hm1 Hm2) as E2.
  rewrite E in E1. congruence.
Qed.

(** A term, an underscore and a number: the last underscore is the one
    before the number, so the whole determines the parts. *)
Lemma term_and_limit_inj (a a' : string) (n n' : Z) :
  a ++ "_" ++ PyStr.of_int n = a' ++ "_" ++ PyStr.of_int n' -> a = a' /\ n = n'.
Proof.
  revert a'. induction a as [|c a IH]; intros [|c' a']; push_append.
  - intros [= E]. split; [reflexivity|now apply of_int_inj].
  - intros [= _ E]. pose proof (no_underscore_in_int n) as H.
    rewrite E, has_char_app in H. apply orb_false_iff in H as [_ H].
    revert H. push_append. discriminate.
  - intros [= _ E]. pose proof (no_underscore_in_int n') as H.
    rewrite <- E, has_char_app in H. apply orb_false_iff in H as [_ H].
    revert H. push_append. discriminate.
  - intros [= -> E]. destruct (IH a' E) as [-> ->]. now split.
Qed.

(** X22. Searches that differ in the term or in the limit have different cache
    keys, on either adapter: no search is answered from the entry of
    another one. *)
Theorem search_keys_are_injective (term term' : string) (limit limit' : Z) :
  (docker_hub_key term limit = docker_hub_key term' limit' -> term = term' /\ limit = limit') /\
  (quay_key term limit = quay_key term' limit' -> term = term' /\ limit = limit').
Proof.
  unfold docker_hub_key, quay_key. split; intros E.
  - apply append_inj_l in E. now apply term_and_limit_inj.
  - apply append_inj_l in E. now apply term_and_limit_inj.
Qed.

(** ** [search_all] *)

(** X23. [search_all] sends at most two requests, the one to Docker Hub before
    the one to Quay, and when it returns, its result has the two entries
    docker_hub and quay, in this order. *)
Theorem search_all_requests fromisoformat server self t1 t2 t3 t4 term limit (w : world) :
  let run := search_all fromisoformat server self t1 t2 t3 t4 term limit w in
  (exists sent, log (snd run) = (sent ++ log w)%list /\
                (sent = [] \/ sent = [docker_hub_url term limit] \/
                 sent = [quay_url term] \/
                 sent = [quay_url term; docker_hub_url term limit])) /\
  (forall r, fst run = Return r ->
             exists docker quay, r = [("docker_hub", docker); ("quay", quay)]).
Proof.
  cbv zeta. unfold search_all, mbind, ret.
  rewrite search_docker_hub_shape.
  pose proof (cached_search_log fromisoformat server self t1 t2
                (docker_hub_key term limit) (docker_hub_url term limit)
                docker_hub_records docker_hub_result w) as Hd.
  destruct (cached_search fromisoformat server self t1 t2 (docker_hub_key term limit)
              (docker_hub_url term limit) docker_hub_records docker_hub_result w)
    as [[docker|e] w1]; cbn [snd] in Hd.
  - rewrite search_quay_shape.
    pose proof (cached_search_log fromisoformat server self t3 t4
                  (quay_key term limit) (quay_url term)
                  (quay_records limit) quay_result w1) as Hq.
    destruct (cached_search fromisoformat server self t3 t4 (quay_key term limit)
                (quay_url term) (quay_records limit) quay_result w1)
      as [[quay|e] w2]; cbn [snd fst] in *.
    + split; [|intros r [= <-]; eauto].
      destruct Hd as [Hd|Hd], Hq as [Hq|Hq]; rewrite Hq, Hd.
      * exists []. auto.
      * exists [quay_url term]. auto.
      * exists [docker_hub_url term limit]. auto.
      * exists [quay_url term; docker_hub_url term limit]. auto 6.
    + split; [|discriminate].
      destruct Hd as [Hd|Hd], Hq as [Hq|Hq]; rewrite Hq, Hd.
      * exists []. auto.
      * exists [quay_url term]. auto.
      * exists [docker_hub_url term limit]. auto.
      * exists [quay_url term; docker_hub_url term limit]. auto 6.
  - cbn [snd fst]. split; [|discriminate].
    destruct Hd as [Hd|Hd]; rewrite Hd.
    + exists []. auto.
    + exists [docker_hub_url term limit]. auto.
Qed.

(** X24. [search_all] is memoized as a whole: when both adapters fetched and
    both found something, the same [search_all], with both cache reads
    less than 3600 seconds after the writes, returns the same result and
    leaves the world as it is: no request, no write. The Quay write does
    not disturb the Docker Hub entry. *)
Theorem search_all_memoized fromisoformat server self t1 t2 t3 t4 u1 u2 u3 u4 term limit
    (w w2 : world) (docker quay : list ImageResult) :
  (forall t, Datetime.valid t -> fromisoformat (Datetime.isoformat t) = Datetime.Naive t) ->
  use_cache self = true ->
  Datetime.valid t2 -> Datetime.valid t4 ->
  search_all fromisoformat server self t1 t2 t3 t4 term limit w
  = (Return [("docker_hub", docker); ("quay", quay)], w2) ->
  log w2 = quay_url term :: docker_hub_url term limit :: log w ->
  docker <> [] -> quay <> [] ->
  age u1 t2 < Datetime.timedelta_seconds 3600 ->
  age u3 t4 < Datetime.timedelta_seconds 3600 ->
  search_all fromisoformat server self u1 u2 u3 u4 term limit w2
  = (Return [("docker_hub", docker); ("quay", quay)], w2).
Proof.
  intros Hrt Hu Hv2 Hv4 Hrun Hlog Hdne Hqne Hage1 Hage3.
  unfold search_all, mbind, ret in Hrun.
  destruct (search_docker_hub fromisoformat server self t1 t2 term limit w)
    as [[d|e] w1] eqn:Hd; [|discriminate].
  destruct (search_quay fromisoformat server self t3 t4 term limit w1)
    as [[q|e] w2'] eqn:Hq; [|discriminate].
  injection Hrun as -> -> ->.
  rewrite search_docker_hub_shape in Hd. rewrite search_quay_shape in Hq.
  (* both searches went to the network *)
  pose proof (cached_search_log fromisoformat server self t1 t2
                (docker_hub_key term limit) (docker_hub_url term limit)
                docker_hub_records docker_hub_result w) as Hl1.
  pose proof (cached_search_log fromisoformat server self t3 t4
                (quay_key term limit) (quay_url term)
                (quay_records limit) quay_result w1) as Hl2.
  rewrite Hd in Hl1. rewrite Hq in Hl2. cbn [snd] in Hl1, Hl2.
  assert (Hf1 : log w1 <> log w).
  { intros E. destruct Hl2 as [Hl2|Hl2]; rewrite Hl2, E in Hlog.
    - apply (f_equal (@List.length string)) in Hlog. cbn in Hlog. lia.
    - apply (f_equal (@List.length string)) in Hlog. cbn in Hlog. lia. }
  assert (Hf2 : log w2 <> log w1).
  { intros E. destruct Hl1 as [Hl1|Hl1]; [congruence|].
    rewrite E, Hl1 in Hlog.
    apply (f_equal (@List.length string)) in Hlog. cbn in Hlog. lia. }
  destruct (cached_search_fetched _ _ _ _ _ _ _ _ _ _ _ _ Hd Hf1)
    as [_ [[-> _]|[Hd1 _]]]; [congruence|].
  destruct (cached_search_fetched _ _ _ _ _ _ _ _ _ _ _ _ Hq Hf2)
    as [_ [[-> _]|[Hd2 _]]]; [congruence|].
  (* the second run: two cache hits *)
  destruct (keys_of_different_operations term term "" limit limit 0) as (Hkeys & _ & _).
  assert (Hhit1 : search_docker_hub fromisoformat server self u1 u2 term limit w2
                  = (Return docker, w2)).
  { rewrite search_docker_hub_shape. apply cached_search_hit; [|exact Hdne].
    rewrite Hd2.
    rewrite (get_cached_after_other_write fromisoformat self u1
               (docker_hub_key term limit) (disk w1) _ (quay_key term limit) Hkeys)
      by (right; unfold _set_cached; eauto).
    rewrite Hd1, (get_after_set fromisoformat Hrt) by assumption.
    apply Z.ltb_lt in Hage1. unfold TTL, CACHE_TTL. now rewrite Hage1. }
  assert (Hhit2 : search_quay fromisoformat server self u3 u4 term limit w2
                  = (Return quay, w2)).
  { rewrite search_quay_shape. apply cached_search_hit; [|exact Hqne].
    rewrite Hd2, (get_after_set fromisoformat Hrt) by assumption.
    apply Z.ltb_lt in Hage3. unfold TTL, CACHE_TTL. now rewrite Hage3. }
  unfold search_all, mbind, ret. rewrite Hhit1, Hhit2. reflexivity.
Qed.

Lemma search_all_memoized_witness :
  search_all Datetime.parse_iso two_repos enabled ten_past_noon ten_past_noon
    ten_past_noon ten_past_noon "nginx" 10 (snd all_first)
  = (Return [("docker_hub", nginx_results);
             ("quay", [mkImageResult (JStr "quay.io/library/nginx") (JStr "quay.io")
                         (JStr "") (JNum 0) (JNum 0) (JBool false) (JStr "latest");
                       mkImageResult (JStr "quay.io/bitnami/nginx") (JStr "quay.io")
                         (JStr "Bitnami image") (JNum 0) (JNum 0) (JBool false)
                         (JStr "latest")])],
     snd all_first).
Proof.
  apply (search_all_memoized Datetime.parse_iso two_repos enabled noon noon noon noon
           ten_past_noon ten_past_noon ten_past_noon ten_past_noon "nginx" 10 start).
  - exact parse_iso_isoformat.
  - reflexivity.
  - apply valid_of_validb. reflexivity.
  - apply valid_of_validb. reflexivity.
  - vm_compute. reflexivity.
  - vm_compute. reflexivity.
  - discriminate.
  - discriminate.
  - vm_compute. reflexivity.
  - vm_compute. reflexivity.
Defined.

(** ** More on the ranking *)

(** X25. The returned tag is never made up: from a list that is not empty, it
    is one of the fetched tags. *)
Theorem best_tag_is_a_fetched_tag (tags : list string) :
  tags <> [] -> In (Ranker.best_tag tags) tags.
Proof.
  intros Hne. destruct (Ranker.valid_tags tags) as [|v vs] eqn:E.
  - destruct tags as [|first rest]; [congruence|].
    unfold Ranker.best_tag. rewrite E. now left.
  - assert (Hv : Ranker.valid_tags tags <> []) by (rewrite E; discriminate).
    destruct (best_tag_first_max tags Hv) as (l1 & l2 & Hsplit & _ & _).
    assert (Hin : In (Ranker.best_tag tags) (Ranker.valid_tags tags)).
    { rewrite Hsplit. apply in_or_app. right. now left. }
    now apply valid_tags_In in Hin.
Qed.

Lemma best_tag_is_a_fetched_tag_witness :
  In (Ranker.best_tag ["nightly"; "edge"]) ["nightly"; "edge"].
Proof.
  apply (best_tag_is_a_fetched_tag ["nightly"; "edge"]). discriminate.
Defined.

(** X26. No tag that survives the two filters has a greater version key than
    the returned tag. *)
Theorem best_tag_has_greatest_key (tags : list string) (t : string) :
  In t (Ranker.valid_tags tags) ->
  PyList.lt (Ranker.version_key (Ranker.best_tag tags)) (Ranker.version_key t) = false.
Proof.
  intros Hin.
  assert (Hv : Ranker.valid_tags tags <> []) by (intros E; rewrite E in Hin; destruct Hin).
  destruct (best_tag_first_max tags Hv) as (l1 & l2 & Hsplit & H1 & H2).
  rewrite Hsplit in Hin. apply in_app_or in Hin as [Hin|[<-|Hin]].
  - rewrite List.Forall_forall in H1. apply lt_asym. now apply H1.
  - apply lt_irrefl.
  - rewrite List.Forall_forall in H2. now apply H2.
Qed.

Lemma best_tag_has_greatest_key_witness :
  PyList.lt (Ranker.version_key (Ranker.best_tag ["1.2"; "latest"; "1.10"; "1.9"]))
            (Ranker.version_key "1.9") = false.
Proof.
  apply (best_tag_has_greatest_key ["1.2"; "latest"; "1.10"; "1.9"] "1.9").
  vm_compute. tauto.
Defined.

(** X27. A version key has exactly four components, whatever the tag. *)
Theorem version_key_has_four_components (tag : string) :
  List.length (Ranker.version_key tag) = 4%nat.
Proof.
  unfold Ranker.version_key, Ranker.pad4.
  rewrite length_app, repeat_length, length_map.
  pose proof (List.firstn_le_length 4
                (PyStr.split_on Ranker.is_sep (PyStr.lstrip "v" tag))).
  lia.
Qed.

(** *** Numbers in tags *)

Lemma uint_value_acc (d : Decimal.uint) (acc : positive) :
  Z.pos (Pos.of_uint_acc d acc) = uint_value (Z.pos acc) d.
Proof.
  revert acc. induction d; intros acc; cbn [Pos.of_uint_acc uint_value];
    [reflexivity|..]; rewrite IHd; f_equal; lia.
Qed.

Lemma uint_value_of_uint (d : Decimal.uint) : Z.of_N (Pos.of_uint d) = uint_value 0 d.
Proof.
  induction d; cbn [Pos.of_uint uint_value]; [reflexivity|exact IHd|..];
    cbn [Z.of_N]; rewrite uint_value_acc; reflexivity.
Qed.

Lemma digits_value_uint (acc : Z) (d : Decimal.uint) :
  PyStr.digits_value acc true (NilEmpty.string_of_uint d) = Some (uint_value acc d).
Proof.
  revert acc. induction d; intros acc; [reflexivity|..];
    cbn [NilEmpty.string_of_uint PyStr.digits_value uint_value];
    (change (PyStr.is_digit _) with true at 1); cbv iota; rewrite <- IHd; reflexivity.
Qed.

Lemma uint_digits (d : Decimal.uint) : all_digits (NilEmpty.string_of_uint d).
Proof. unfold all_digits. induction d; cbn; try exact IHd; reflexivity. Qed.

(** [str(n)] of a natural number [n]: decimal digits, at least one, and
    read from the left they give [n]. *)
Lemma of_int_digits (n : Z) :
  0 <= n ->
  all_digits (PyStr.of_int n) /\
  exists c rest, PyStr.of_int n = String c rest /\
                 PyStr.digits_value 0 false (PyStr.of_int n) = Some n.
Proof.
  intros Hn. unfold PyStr.of_int. destruct n as [|p|p]; [| |lia].
  - split; [reflexivity|]. exists "0"%char, EmptyString. split; reflexivity.
  - cbn [Z.to_int NilZero.string_of_int].
    pose proof (DecimalPos.Unsigned.to_uint_nonnil p) as Hnil.
    pose proof (DecimalPos.Unsigned.of_to p) as Hval.
    apply (f_equal Z.of_N) in Hval. rewrite uint_value_of_uint in Hval. cbn in Hval.
    destruct (Pos.to_uint p) as [|l|l|l|l|l|l|l|l|l|l] eqn:E; [congruence|..];
      (split; [apply (uint_digits (_ l))|]);
      cbn [NilZero.string_of_uint NilEmpty.string_of_uint];
      (eexists; eexists; split; [reflexivity|]);
      cbn [PyStr.digits_value]; (change (PyStr.is_digit _) with true at 1); cbv iota;
      rewrite digits_value_uint; rewrite <- Hval; reflexivity.
Qed.

(** A digit is no separator, no space, no sign and not the letter v. *)
Lemma digit_is_plain (c : ascii) :
  PyStr.is_digit c = true ->
  Ranker.is_sep c = false /\ PyStr.is_space c = false /\ Ascii.eqb "v" c = false.
Proof.
  destruct c as [b0 b1 b2 b3 b4 b5 b6 b7].
  destruct b0, b1, b2, b3, b4, b5, b6, b7; intros H; try discriminate H;
    repeat split; reflexivity.
Qed.

Lemma all_digits_cons (c : ascii) (s : string) :
  all_digits (String c s) <-> PyStr.is_digit c = true /\ all_digits s.
Proof. unfold all_digits. cbn [list_ascii_of_string forallb]. apply andb_true_iff. Qed.

Lemma rev_append_twice (s a b : string) :
  PyStr.rev_append (PyStr.rev_append s a) b = PyStr.rev_append a (s ++ b).
Proof.
  revert a b. induction s as [|c s IH]; intros a b; [reflexivity|].
  cbn [PyStr.rev_append]. rewrite IH. now rewrite append_cons.
Qed.

Lemma rev_rev (s : string) : PyStr.rev (PyStr.rev s) = s.
Proof. unfold PyStr.rev. rewrite rev_append_twice. cbn. apply append_nil_r. Qed.

Lemma rev_append_digits (s acc : string) :
  all_digits s -> all_digits acc -> all_digits (PyStr.rev_append s acc).
Proof.
  revert acc. induction s as [|c s IH]; intros acc Hs Ha; [exact Ha|].
  apply all_digits_cons in Hs as [Hc Hs]. cbn [PyStr.rev_append].
  apply IH; [exact Hs|]. now apply all_digits_cons.
Qed.

Lemma lstrip_space_digits (s : string) :
  all_digits s -> PyStr.lstrip_if PyStr.is_space s = s.
Proof.
  destruct s as [|c s]; [reflexivity|]. intros H.
  apply all_digits_cons in H as [Hc _].
  destruct (digit_is_plain c Hc) as (_ & Hsp & _). cbn. now rewrite Hsp.
Qed.

Lemma count_digits_all (s : string) :
  all_digits s -> PyStr.count_digits s = N.of_nat (String.length s).
Proof.
  induction s as [|c s IH]; [reflexivity|]. intros H.
  apply all_digits_cons in H as [Hc Hs].
  cbn [PyStr.count_digits String.length]. rewrite Hc, (IH Hs). lia.
Qed.

(** [int] of a string of digits within the limit reads the digits. *)
Lemma int_of_digits (s : string) :
  all_digits s ->
  (N.of_nat (String.length s) <= PyStr.max_str_digits)%N ->
  PyStr.int s = PyStr.digits_value 0 false s.
Proof.
  intros H Hlen.
  assert (Hlim : PyStr.limited_digits s = PyStr.digits_value 0 false s).
  { unfold PyStr.limited_digits. rewrite (count_digits_all s H).
    apply N.ltb_ge in Hlen. now rewrite Hlen. }
  unfold PyStr.int, PyStr.rstrip_if.
  rewrite (lstrip_space_digits s H).
  rewrite (lstrip_space_digits (PyStr.rev s))
    by (apply rev_append_digits; [exact H|reflexivity]).
  rewrite rev_rev. destruct s as [|c s]; [exact Hlim|].
  apply all_digits_cons in H as [Hc _].
  destruct c as [b0 b1 b2 b3 b4 b5 b6 b7].
  destruct b0, b1, b2, b3, b4, b5, b6, b7; try discriminate Hc; exact Hlim.
Qed.

Lemma string_of_uint_length (d : Decimal.uint) :
  String.length (NilEmpty.string_of_uint d) = Decimal.nb_digits d.
Proof.
  induction d; cbn [NilEmpty.string_of_uint String.length Decimal.nb_digits];
    congruence.
Qed.

(** Digits read after [acc] leave [acc] in front of them. *)
Lemma uint_value_lower (d : Decimal.uint) (acc : Z) :
  0 <= acc -> acc * 10 ^ Z.of_nat (Decimal.nb_digits d) <= uint_value acc d.
Proof.
  revert acc. induction d; intros acc Ha; cbn [uint_value Decimal.nb_digits];
    [rewrite Z.pow_0_r; lia|..];
    rewrite Nat2Z.inj_succ, Z.pow_succ_r by lia;
    (etransitivity; [|apply IHd; lia]);
    pose proof (Z.pow_nonneg 10 (Z.of_nat (Decimal.nb_digits d))) as HP;
    set (P := 10 ^ Z.of_nat (Decimal.nb_digits d)) in *; nia.
Qed.

(** A positive number of [k] digits is at least [10 ^ (k - 1)]: its
    numeral has no leading zero. *)
Lemma to_uint_lower (p : positive) :
  10 ^ (Z.of_nat (Decimal.nb_digits (Pos.to_uint p)) - 1) <= Z.pos p.
Proof.
  pose proof (DecimalPos.Unsigned.of_to p) as Hval.
  apply (f_equal Z.of_N) in Hval. rewrite uint_value_of_uint in Hval.
  cbn [Z.of_N] in Hval.
  assert (Hn : Pos.to_uint p = Decimal.nzhead (Pos.to_uint p)).
  { pose proof (DecimalPos.Unsigned.to_of (Pos.to_uint p)) as H.
    rewrite DecimalPos.Unsigned.of_to in H. cbn [N.to_uint] in H.
    rewrite H at 1. apply DecimalFacts.unorm_nzhead. intros E.
    apply DecimalFacts.unorm_0 in E. rewrite <- H in E.
    exact (DecimalPos.Unsigned.to_uint_nonzero p E). }
  pose proof (DecimalFacts.nzhead_nonzero (Pos.to_uint p)) as Hz. rewrite <- Hn in Hz.
  pose proof (DecimalPos.Unsigned.to_uint_nonnil p) as Hnil. clear Hn.
  destruct (Pos.to_uint p) as [|l|l|l|l|l|l|l|l|l|l];
    [congruence|exfalso; exact (Hz l eq_refl)|..];
    cbn [Decimal.nb_digits uint_value] in *; rewrite <- Hval;
    replace (Z.of_nat (S (Decimal.nb_digits l)) - 1)
      with (Z.of_nat (Decimal.nb_digits l)) by lia;
    match goal with
    | |- _ <= uint_value ?a l =>
        pose proof (uint_value_lower l a ltac:(lia)) as Hl
    end;
    pose proof (Z.pow_nonneg 10 (Z.of_nat (Decimal.nb_digits l))) as HP;
    set (P := 10 ^ Z.of_nat (Decimal.nb_digits l)) in *; lia.
Qed.

(** [str(n)] of a natural number below [10 ^ 4300] is within the limit of
    [int()]. *)
Lemma of_int_length (n : Z) :
  0 <= n < 10 ^ Z.of_N PyStr.max_str_digits ->
  (N.of_nat (String.length (PyStr.of_int n)) <= PyStr.max_str_digits)%N.
Proof.
  intros [Hn Hlt]. unfold PyStr.of_int. destruct n as [|p|p]; [| |lia].
  - vm_compute. discriminate.
  - cbn [Z.to_int NilZero.string_of_int].
    pose proof (DecimalPos.Unsigned.to_uint_nonnil p) as Hnil.
    pose proof (to_uint_lower p) as Hlow.
    assert (E : NilZero.string_of_uint (Pos.to_uint p)
                = NilEmpty.string_of_uint (Pos.to_uint p)).
    { destruct (Pos.to_uint p); [congruence|reflexivity..]. }
    rewrite E, string_of_uint_length.
    assert (Hk : Z.of_nat (Decimal.nb_digits (Pos.to_uint p)) - 1
                 < Z.of_N PyStr.max_str_digits).
    { destruct (Z.lt_ge_cases (Z.of_nat (Decimal.nb_digits (Pos.to_uint p)) - 1) 0)
        as [Hneg|Hpos]; [lia|].
      apply (Z.pow_lt_mono_r_iff 10); lia. }
    lia.
Qed.

Lemma int_of_nat_string (n : Z) :
  0 <= n < 10 ^ Z.of_N PyStr.max_str_digits -> PyStr.int (PyStr.of_int n) = Some n.
Proof.
  intros Hn. destruct (of_int_digits n (proj1 Hn)) as (Hd & c & rest & _ & Hv).
  rewrite int_of_digits; [exact Hv|exact Hd|now apply of_int_length].
Qed.

Lemma split_on_digits (s : string) :
  all_digits s -> PyStr.split_on Ranker.is_sep s = [s].
Proof.
  induction s as [|c s IH]; [reflexivity|]. intros H.
  apply all_digits_cons in H as [Hc Hs].
  destruct (digit_is_plain c Hc) as (Hsep & _).
  cbn [PyStr.split_on]. rewrite Hsep, (IH Hs). reflexivity.
Qed.

Lemma split_on_digits_dot (s rest : string) :
  all_digits s ->
  PyStr.split_on Ranker.is_sep (s ++ String "." rest)
  = s :: PyStr.split_on Ranker.is_sep rest.
Proof.
  induction s as [|c s IH]; intros H.
  - rewrite append_nil_l. reflexivity.
  - apply all_digits_cons in H as [Hc Hs].
    destruct (digit_is_plain c Hc) as (Hsep & _).
    rewrite append_cons. cbn [PyStr.split_on]. now rewrite Hsep, (IH Hs).
Qed.

Lemma lstrip_v_number (n : Z) (rest : string) :
  0 <= n -> PyStr.lstrip "v" (PyStr.of_int n ++ rest) = PyStr.of_int n ++ rest.
Proof.
  intros Hn. destruct (of_int_digits n Hn) as (Hd & c & s & E & _).
  rewrite E in *. apply all_digits_cons in Hd as [Hc _].
  destruct (digit_is_plain c Hc) as (_ & _ & Hv).
  rewrite append_cons. unfold PyStr.lstrip. cbn [PyStr.lstrip_if]. now rewrite Hv.
Qed.

(** X28. The components of a version are read as numbers: a tag written as
    one, two or three natural numbers of at most 4300 digits with dots
    between them, with or without a leading v, has these numbers as its
    key, and zeros after them. So 1.10 ranks above 1.9. *)
Theorem version_key_of_numbers (a b c : Z) :
  0 <= a < 10 ^ 4300 -> 0 <= b < 10 ^ 4300 -> 0 <= c < 10 ^ 4300 ->
  let A := PyStr.of_int a in
  let B := PyStr.of_int b in
  let C := PyStr.of_int c in
  Ranker.version_key A = [a; 0; 0; 0] /\
  Ranker.version_key (A ++ "." ++ B) = [a; b; 0; 0] /\
  Ranker.version_key (A ++ "." ++ B ++ "." ++ C) = [a; b; c; 0] /\
  Ranker.version_key ("v" ++ A ++ "." ++ B ++ "." ++ C) = [a; b; c; 0].
Proof.
  change 4300 with (Z.of_N PyStr.max_str_digits).
  intros Ha Hb Hc. cbv zeta.
  destruct (of_int_digits a (proj1 Ha)) as (Da & _).
  destruct (of_int_digits b (proj1 Hb)) as (Db & _).
  destruct (of_int_digits c (proj1 Hc)) as (Dc & _).
  assert (H3 : Ranker.version_key (PyStr.of_int a ++ "." ++ PyStr.of_int b ++ "."
                                   ++ PyStr.of_int c) = [a; b; c; 0]).
  { unfold Ranker.version_key. rewrite lstrip_v_number by exact (proj1 Ha). push_append.
    rewrite (split_on_digits_dot _ _ Da), (split_on_digits_dot _ _ Db),
      (split_on_digits _ Dc).
    cbn [firstn map]. now rewrite !int_of_nat_string by assumption. }
  repeat split.
  - unfold Ranker.version_key.
    rewrite <- (append_nil_r (PyStr.of_int a)) at 1.
    rewrite lstrip_v_number, append_nil_r by exact (proj1 Ha).
    rewrite (split_on_digits _ Da). cbn [firstn map].
    now rewrite int_of_nat_string by assumption.
  - unfold Ranker.version_key. rewrite lstrip_v_number by exact (proj1 Ha). push_append.
    rewrite (split_on_digits_dot _ _ Da), (split_on_digits _ Db).
    cbn [firstn map]. now rewrite !int_of_nat_string by assumption.
  - exact H3.
  - rewrite <- H3. unfold Ranker.version_key.
    rewrite (append_cons "v" EmptyString), append_nil_l.
    unfold PyStr.lstrip at 1. cbn [PyStr.lstrip_if Ascii.eqb Bool.eqb]. reflexivity.
Qed.

Lemma version_key_of_numbers_witness :
  Ranker.version_key (PyStr.of_int 1) = [1; 0; 0; 0] /\
  Ranker.version_key (PyStr.of_int 1 ++ "." ++ PyStr.of_int 10) = [1; 10; 0; 0] /\
  Ranker.version_key (PyStr.of_int 1 ++ "." ++ PyStr.of_int 10 ++ "." ++ PyStr.of_int 3)
  = [1; 10; 3; 0] /\
  Ranker.version_key ("v" ++ PyStr.of_int 1 ++ "." ++ PyStr.of_int 10 ++ "."
                      ++ PyStr.of_int 3) = [1; 10; 3; 0].
Proof.
  apply (version_key_of_numbers 1 10 3); split; (lia || (vm_compute; reflexivity)).
Defined.
